(** * A currency-ticker microservice (main.go), embedded and verified

    The service keeps one in-memory [Markets] value, refreshed from an
    upstream exchange every ten seconds, and serves it through two HTTP
    handlers.  This development embeds

    - the data types of main.go ([Currency], [CurrencyData],
      [MarketTicker], [Markets], [Config]);
    - the two handlers [CurrencyHandler] and [CurrenciesHandler], written
      over the reads they perform on the shared [Markets] cell;
    - [getMarkets] and one iteration of the refresh loop of
      [updateMarkets];
    - the routing closure registered in [main];
    - the parts of the Go standard library that the handlers go through:
      [encoding/json] for values made of strings, structs and slices
      (with [unicode/utf8]), the query parser of [net/url], the response
      writer, [Error] and [Redirect] of [net/http].  They follow the
      current library sources: the query parser rejects pieces with a
      semicolon, and the string encoder writes the short escapes for
      backspace and form feed.

    Go strings are byte strings; they are embedded as [string], whose
    characters are the 256 byte values.  The network and
    [json.Unmarshal] are parameters of the fetcher. *)

From Stdlib Require Import Ascii String NArith Lia Permutation.
From stdpp Require Import base option list gmap strings fin_maps.

Local Open Scope N_scope.

(** ** Go basics *)

(** A Go [(T, error)] result pair in which exactly one side is meaningful. *)
Inductive result (A : Type) : Type :=
| Ok (a : A)
| Err (e : string).
Arguments Ok {A} a.
Arguments Err {A} e.

Definition is_Err {A} (r : result A) : bool :=
  match r with Ok _ => false | Err _ => true end.

(** The numeric value of a byte. *)
Definition byte_val (b : ascii) : N := N_of_ascii b.
Definition byte_of (n : N) : ascii := ascii_of_N n.

Definition dquote : ascii := byte_of 34.
Definition backslash : ascii := byte_of 92.

Fixpoint take_bytes (n : nat) (s : string) : string :=
  match n, s with
  | S n', String b rest => String b (take_bytes n' rest)
  | _, _ => EmptyString
  end.

Fixpoint drop_bytes (n : nat) (s : string) : string :=
  match n, s with
  | S n', String _ rest => drop_bytes n' rest
  | _, _ => s
  end.

(** Writing aid for JSON literals: every apostrophe stands for a double
    quote, so that [js "{'id':'x'}"] is the JSON text of an object whose
    member id has the value x. *)
Fixpoint js (s : string) : string :=
  match s with
  | EmptyString => EmptyString
  | String c rest =>
      String (if Ascii.eqb c (byte_of 39) then dquote else c) (js rest)
  end.

(** ** unicode/utf8: decoding one rune *)

Definition RuneError : N := 65533.   (* U+FFFD *)
Definition RuneSelf : N := 128.
Definition UTFMax : nat := 4.

(** The table [first] of unicode/utf8 classifies a leading byte: plain
    ASCII, invalid, or the lead of a sequence of [size] bytes whose second
    byte must lie in [lo..hi]. *)
Inductive first_info : Type :=
| first_as
| first_xx
| first_seq (size : nat) (lo hi : N).

Definition locb : N := 128.  (* 1000 0000 *)
Definition hicb : N := 191.  (* 1011 1111 *)

Definition first (b : N) : first_info :=
  if b <? 128 then first_as
  else if b <? 194 then first_xx                       (* 80..C1 *)
  else if b <? 224 then first_seq 2 locb hicb          (* C2..DF *)
  else if b =? 224 then first_seq 3 160 hicb           (* E0 *)
  else if b <? 237 then first_seq 3 locb hicb          (* E1..EC *)
  else if b =? 237 then first_seq 3 locb 159           (* ED *)
  else if b <? 240 then first_seq 3 locb hicb          (* EE..EF *)
  else if b =? 240 then first_seq 4 144 hicb           (* F0 *)
  else if b <? 244 then first_seq 4 locb hicb          (* F1..F3 *)
  else if b =? 244 then first_seq 4 locb 143           (* F4 *)
  else first_xx.                                       (* F5..FF *)

Definition maskx : N := 63.
Definition mask2 : N := 31.
Definition mask3 : N := 15.
Definition mask4 : N := 7.

Definition in_range (lo hi b : N) : bool := (lo <=? b) && (b <=? hi).

(** [utf8.DecodeRuneInString]: the rune at the head of [s] and its width in
    bytes; [(RuneError, 1)] for an invalid or truncated encoding. *)
Definition DecodeRuneInString (s : string) : N * nat :=
  match s with
  | EmptyString => (RuneError, 0%nat)
  | String c0 r1 =>
      let s0 := byte_val c0 in
      match first s0 with
      | first_as => (s0, 1%nat)
      | first_xx => (RuneError, 1%nat)
      | first_seq sz lo hi =>
          match r1 with
          | EmptyString => (RuneError, 1%nat)
          | String c1 r2 =>
              let s1 := byte_val c1 in
              if negb (in_range lo hi s1) then (RuneError, 1%nat)
              else if (sz <=? 2)%nat then
                (N.lor (N.shiftl (N.land s0 mask2) 6) (N.land s1 maskx), 2%nat)
              else
                match r2 with
                | EmptyString => (RuneError, 1%nat)
                | String c2 r3 =>
                    let s2 := byte_val c2 in
                    if negb (in_range locb hicb s2) then (RuneError, 1%nat)
                    else if (sz <=? 3)%nat then
                      (N.lor (N.shiftl (N.land s0 mask3) 12)
                         (N.lor (N.shiftl (N.land s1 maskx) 6)
                                (N.land s2 maskx)), 3%nat)
                    else
                      match r3 with
                      | EmptyString => (RuneError, 1%nat)
                      | String c3 _ =>
                          let s3 := byte_val c3 in
                          if negb (in_range locb hicb s3)
                          then (RuneError, 1%nat)
                          else
                            (N.lor (N.shiftl (N.land s0 mask4) 18)
                               (N.lor (N.shiftl (N.land s1 maskx) 12)
                                  (N.lor (N.shiftl (N.land s2 maskx) 6)
                                         (N.land s3 maskx))), 4%nat)
                      end
                end
          end
      end
  end.

(** ** encoding/json: marshalling *)

(** [htmlSafeSet]: the ASCII bytes that [json.Marshal] copies unescaped:
    everything from space to DEL except the double quote, the backslash
    and the three HTML-sensitive characters. *)
Definition htmlSafeSet (b : N) : bool :=
  (32 <=? b) && (b <? 128)
  && negb (b =? 34)      (* double quote *)
  && negb (b =? 38)      (* & *)
  && negb (b =? 60)      (* < *)
  && negb (b =? 62)      (* > *)
  && negb (b =? 92).     (* backslash *)

Definition hex (n : N) : ascii :=
  if n <? 10 then byte_of (48 + n) else byte_of (87 + n).

(** The escape written for an ASCII byte outside [htmlSafeSet]. *)
Definition escape_byte (b : N) : string :=
  if (b =? 92) || (b =? 34) then String backslash (String (byte_of b) "")
  else if b =? 8 then String backslash "b"
  else if b =? 12 then String backslash "f"
  else if b =? 10 then String backslash "n"
  else if b =? 13 then String backslash "r"
  else if b =? 9 then String backslash "t"
  else String backslash
         (String "u" (String "0" (String "0"
            (String (hex (N.shiftr b 4)) (String (hex (N.land b 15)) ""))))).

(** The loop of [appendString] with HTML escaping on.  Every iteration
    consumes at least one byte of [src], so [fuel] bounds the number of
    iterations by the length of the input. *)
Fixpoint appendString_loop (fuel : nat) (src : string) : string :=
  match fuel with
  | O => ""
  | S fuel' =>
      match src with
      | EmptyString => ""
      | String c rest =>
          let b := byte_val c in
          if b <? RuneSelf then
            (if htmlSafeSet b then String c "" else escape_byte b)
              +:+ appendString_loop fuel' rest
          else
            let '(r, size) := DecodeRuneInString (take_bytes UTFMax src) in
            if (r =? RuneError) && (size =? 1)%nat then
              String backslash "ufffd"
                +:+ appendString_loop fuel' (drop_bytes size src)
            else if (r =? 8232) || (r =? 8233) then   (* U+2028, U+2029 *)
              String backslash
                (String "u" (String "2" (String "0" (String "2"
                   (String (hex (N.land r 15)) "")))))
                +:+ appendString_loop fuel' (drop_bytes size src)
            else
              take_bytes size src
                +:+ appendString_loop fuel' (drop_bytes size src)
      end
  end.

Definition appendString (src : string) : string :=
  String dquote (appendString_loop (String.length src) src)
    +:+ String dquote "".

(** The Go values [json.Marshal] is asked to encode, as reflection sees
    them: strings, structs (the JSON name of each exported field with its
    value, in declaration order), slices (possibly nil), and the kinds
    the encoder rejects. *)
#[warnings="-register-all"]
Inductive GoValue : Type :=
| VString (s : string)
| VStruct (fields : list (string * GoValue))
| VSlice (elems : option (list GoValue))
| VChan
| VFunc.

Definition comma_unless (first_elem : bool) : string :=
  if first_elem then "" else ",".

Section MarshalSequences.
(** The encoder of the element or field values. *)
Variable marshal : GoValue -> result string.

(** The elements of a non-nil slice, up to and including the closing
    bracket. *)
Fixpoint encode_elems (es : list GoValue) (first_elem : bool)
  : result string :=
  match es with
  | [] => Ok "]"
  | e :: es' =>
      match marshal e with
      | Err err => Err err
      | Ok enc =>
          match encode_elems es' false with
          | Err err => Err err
          | Ok rest => Ok (comma_unless first_elem +:+ enc +:+ rest)
          end
      end
  end.

(** The fields of a struct, up to and including the closing brace.  The
    encoder writes the pre-computed quoted name of each field; for the
    tags of main.go, which are plain letters, that is the name as
    [appendString] writes it. *)
Fixpoint encode_fields (fs : list (string * GoValue)) (first_elem : bool)
  : result string :=
  match fs with
  | [] => Ok "}"
  | (name, fv) :: fs' =>
      match marshal fv with
      | Err err => Err err
      | Ok enc =>
          match encode_fields fs' false with
          | Err err => Err err
          | Ok rest =>
              Ok (comma_unless first_elem +:+ appendString name
                    +:+ ":" +:+ enc +:+ rest)
          end
      end
  end.
End MarshalSequences.

(** [json.Marshal]: a nil slice is written [null]; channels and functions
    make it fail with an unsupported-type error. *)
Fixpoint Marshal (v : GoValue) : result string :=
  match v with
  | VString s => Ok (appendString s)
  | VStruct fields =>
      match encode_fields Marshal fields true with
      | Err e => Err e
      | Ok body => Ok ("{" +:+ body)
      end
  | VSlice None => Ok "null"
  | VSlice (Some elems) =>
      match encode_elems Marshal elems true with
      | Err e => Err e
      | Ok body => Ok ("[" +:+ body)
      end
  | VChan => Err "json: unsupported type: chan"
  | VFunc => Err "json: unsupported type: func"
  end.

(** ** The data types of main.go *)

Module Currency.
(** [Currency] represents the data for a single currency. *)
Record t : Type := mk {
  ID : string;
  FullName : string;
  Ask : string;
  Bid : string;
  Last : string;
  Open : string;
  Low : string;
  High : string;
  FeeCurrency : string;
  Volume : string;
  QuoteVolume : string;
  Change : string;
  PercentChage : string
}.

(** The struct as [json.Marshal] sees it: the json tag of every field
    with its value, in declaration order. *)
Definition reflect (c : t) : GoValue :=
  VStruct
    [ ("id", VString (ID c));
      ("fullName", VString (FullName c));
      ("ask", VString (Ask c));
      ("bid", VString (Bid c));
      ("last", VString (Last c));
      ("open", VString (Open c));
      ("low", VString (Low c));
      ("high", VString (High c));
      ("feeCurrency", VString (FeeCurrency c));
      ("volume", VString (Volume c));
      ("quoteVolume", VString (QuoteVolume c));
      ("change", VString (Change c));
      ("percentChange", VString (PercentChage c)) ].
End Currency.

Module CurrencyData.
(** [CurrencyData] represents the data for all supported currencies.
    [Currencies] is a Go slice: [None] is the nil slice. *)
Record t : Type := mk {
  Currencies : option (list Currency.t)
}.

Definition reflect (d : t) : GoValue :=
  VStruct
    [ ("currencies", VSlice (fmap (M := option) (fmap Currency.reflect)
                               (Currencies d))) ].
End CurrencyData.

Module MarketTicker.
(** [MarketTicker] represents the data for a single market ticker. *)
Record t : Type := mk {
  Ask : string;
  Bid : string;
  Last : string;
  Open : string;
  Low : string;
  High : string;
  Volume : string
}.

(** The zero value, which indexing a map yields for an absent key. *)
Definition zero : t := mk "" "" "" "" "" "" "".
End MarketTicker.

Module Markets.
(** [Markets] represents the data for all supported markets. *)
Record t : Type := mk {
  Markets : gmap string MarketTicker.t
}.
End Markets.

Module Config.
Record t : Type := mk {
  Symbols : list string
}.
End Config.

(** Go slices: [len] and [append], with [None] for the nil slice. *)
Definition slice_len {A} (s : option (list A)) : nat :=
  match s with None => 0%nat | Some l => length l end.

Definition slice_elems {A} (s : option (list A)) : list A :=
  match s with None => [] | Some l => l end.

Definition append {A} (s : option (list A)) (x : A) : option (list A) :=
  Some (slice_elems s ++ [x]).

(** ** net/url: the query of a request URL *)

(** [url.Values], a map from a key to the list of its values. *)
Abbreviation Values := (gmap string (list string)).

Definition Values_Get (v : Values) (key : string) : string :=
  match v !! key with
  | Some (x :: _) => x
  | _ => ""
  end.

Definition Values_Set (v : Values) (key value : string) : Values :=
  <[key := [value]]> v.

Definition ishex (c : ascii) : bool :=
  let b := byte_val c in
  in_range 48 57 b || in_range 97 102 b || in_range 65 70 b.

Definition unhex (c : ascii) : N :=
  let b := byte_val c in
  if in_range 48 57 b then b - 48
  else if in_range 97 102 b then b - 97 + 10
  else if in_range 65 70 b then b - 65 + 10
  else 0.

(** [url.QueryUnescape]: [%XY] becomes the byte XY, [+] a space; a [%]
    that is not followed by two hexadecimal digits is an error. *)
Fixpoint QueryUnescape (s : string) : result string :=
  match s with
  | EmptyString => Ok ""
  | String c rest =>
      if Ascii.eqb c "%" then
        match rest with
        | String h1 (String h2 rest') =>
            if ishex h1 && ishex h2 then
              match QueryUnescape rest' with
              | Ok t => Ok (String (byte_of (N.lor (N.shiftl (unhex h1) 4)
                                                  (unhex h2))) t)
              | Err e => Err e
              end
            else Err "invalid URL escape"
        | _ => Err "invalid URL escape"
        end
      else
        match QueryUnescape rest with
        | Ok t => Ok (String (if Ascii.eqb c "+" then " "%char else c) t)
        | Err e => Err e
        end
  end.

(** [strings.Cut] at a one-byte separator: the text before and after its
    first occurrence (all of [s] and the empty text when there is none). *)
Fixpoint Cut (sep : ascii) (s : string) : string * string :=
  match s with
  | EmptyString => ("", "")
  | String c rest =>
      if Ascii.eqb c sep then ("", rest)
      else let '(before, after) := Cut sep rest in (String c before, after)
  end.

Fixpoint Contains (c : ascii) (s : string) : bool :=
  match s with
  | EmptyString => false
  | String c' rest => Ascii.eqb c' c || Contains c rest
  end.

(** The successive [key] pieces that the loop of [parseQuery] cuts off at
    each ampersand. *)
Fixpoint query_segments (query : string) : list string :=
  match query with
  | EmptyString => []
  | String c rest =>
      if Ascii.eqb c "&" then "" :: query_segments rest
      else match query_segments rest with
           | seg :: segs => String c seg :: segs
           | [] => [String c ""]
           end
  end.

(** One iteration of the loop of [parseQuery]: a piece with a semicolon,
    an empty piece, or one whose key or value does not unescape adds
    nothing to the map. *)
Definition parseQuery_step (m : Values) (piece : string) : Values :=
  if Contains ";" piece then m
  else if String.eqb piece "" then m
  else
    let '(key, value) := Cut "=" piece in
    match QueryUnescape key with
    | Err _ => m
    | Ok key' =>
        match QueryUnescape value with
        | Err _ => m
        | Ok value' => <[key' := default [] (m !! key') ++ [value']]> m
        end
    end.

Definition ParseQuery (query : string) : Values :=
  foldl parseQuery_step ∅ (query_segments query).

Module URL.
Record t : Type := mk {
  Path : string;
  RawQuery : string
}.

(** The method [Query] of a URL parses [RawQuery] and returns a map of its own at
    every call; parse errors are dropped. *)
Definition Query (u : t) : Values := ParseQuery (RawQuery u).
End URL.

Module Request.
Record t : Type := mk {
  Method : string;
  URL : URL.t
}.
End Request.

(** ** net/http: the response under construction *)

Module ResponseWriter.
(** [Status] is [None] until the header has been written. *)
Record t : Type := mk {
  Header : Values;
  Status : option nat;
  Body : string
}.

Definition new : t := mk ∅ None "".

Definition set_header (key value : string) (w : t) : t :=
  mk (Values_Set (Header w) key value) (Status w) (Body w).

Definition del_header (key : string) (w : t) : t :=
  mk (delete key (Header w)) (Status w) (Body w).

(** A second [WriteHeader] is ignored. *)
Definition WriteHeader (code : nat) (w : t) : t :=
  match Status w with
  | Some _ => w
  | None => mk (Header w) (Some code) (Body w)
  end.

(** [Write] sends the header with status 200 first when none was sent.
    Every caller below has set the content type by then, so the
    detection of a content type from the data never comes into play. *)
Definition Write (data : string) (w : t) : t :=
  let w' := WriteHeader 200 w in
  mk (Header w') (Status w') (Body w' +:+ data).
End ResponseWriter.

Definition StatusOK : nat := 200.
Definition StatusMovedPermanently : nat := 301.
Definition StatusBadRequest : nat := 400.
Definition StatusNotFound : nat := 404.
Definition StatusInternalServerError : nat := 500.

Definition newline : string := String (byte_of 10) "".

(** [http.Error]: a plain-text reply with the given status. *)
Definition http_Error (w : ResponseWriter.t) (error : string) (code : nat)
  : ResponseWriter.t :=
  let w := ResponseWriter.del_header "Content-Length" w in
  let w := ResponseWriter.set_header "Content-Type"
             "text/plain; charset=utf-8" w in
  let w := ResponseWriter.set_header "X-Content-Type-Options" "nosniff" w in
  let w := ResponseWriter.WriteHeader code w in
  ResponseWriter.Write (error +:+ newline) w.

(** [http.Redirect] to a rooted ASCII path without HTML-sensitive
    characters, which is how main.go calls it. *)
Definition http_Redirect (w : ResponseWriter.t) (r : Request.t)
    (url : string) (code : nat) (status_text : string) : ResponseWriter.t :=
  let hadCT := bool_decide (is_Some (ResponseWriter.Header w !! "Content-Type")) in
  let w := ResponseWriter.set_header "Location" url w in
  let is_get := String.eqb (Request.Method r) "GET" in
  let is_head := String.eqb (Request.Method r) "HEAD" in
  let w := if negb hadCT && (is_get || is_head)
           then ResponseWriter.set_header "Content-Type"
                  "text/html; charset=utf-8" w
           else w in
  let w := ResponseWriter.WriteHeader code w in
  if negb hadCT && is_get
  then ResponseWriter.Write
         (js "<a href='" +:+ url +:+ js "'>" +:+ status_text +:+ "</a>."
            +:+ newline +:+ newline) w
  else w.

(** ** Code that reads the shared [Markets] cell

    The handlers hold a pointer to the one [Markets] value that the
    refresh loop overwrites.  A handler is embedded as the sequence of the
    reads it performs through that pointer: [LoadMarkets] is one
    evaluation of the expression [markets.Markets], and [RangeOver m] asks
    the runtime for the order in which a [for ... range] statement visits
    the entries of the map [m]. *)
Inductive action (A : Type) : Type :=
| Return (a : A)
| LoadMarkets (k : gmap string MarketTicker.t -> action A)
| RangeOver (m : gmap string MarketTicker.t)
            (k : list (string * MarketTicker.t) -> action A).
Arguments Return {A} a.
Arguments LoadMarkets {A} k.
Arguments RangeOver {A} m k.

(** [CurrencyHandler] handles the GET /currency/{symbol} endpoint.  The
    fields a composite literal leaves out hold the zero value of their
    type, the empty string. *)
Definition CurrencyHandler (w : ResponseWriter.t) (r : Request.t)
  : action ResponseWriter.t :=
  let symbol := Values_Get (URL.Query (Request.URL r)) "symbol" in
  if String.eqb symbol "" then
    Return (http_Error w "No symbol specified" StatusBadRequest)
  else
    LoadMarkets (fun m =>
      match m !! symbol with
      | None =>
          Return (http_Error w "Invalid symbol specified" StatusBadRequest)
      | Some _ =>
          LoadMarkets (fun m' =>
            let marketTicker := default MarketTicker.zero (m' !! symbol) in
            let currency :=
              {| Currency.ID := symbol;
                 Currency.FullName := symbol;
                 Currency.Ask := MarketTicker.Ask marketTicker;
                 Currency.Bid := MarketTicker.Bid marketTicker;
                 Currency.Last := MarketTicker.Last marketTicker;
                 Currency.Open := MarketTicker.Open marketTicker;
                 Currency.Low := MarketTicker.Low marketTicker;
                 Currency.High := MarketTicker.High marketTicker;
                 Currency.FeeCurrency := "BTC";
                 Currency.Volume := "";
                 Currency.QuoteVolume := "";
                 Currency.Change := "";
                 Currency.PercentChage := "" |} in
            match Marshal (Currency.reflect currency) with
            | Err e => Return (http_Error w e StatusInternalServerError)
            | Ok js_ =>
                let w := ResponseWriter.set_header "Content-Type"
                           "application/json" w in
                Return (ResponseWriter.Write js_ w)
            end)
      end).

(** [CurrenciesHandler] handles the GET /currency/all endpoint.
    [currencies] starts as the nil slice of [var currencies []Currency]. *)
Definition CurrenciesHandler (w : ResponseWriter.t) (r : Request.t)
  : action ResponseWriter.t :=
  LoadMarkets (fun m =>
    RangeOver m (fun entries =>
      let currencies :=
        foldl (fun (currencies : option (list Currency.t))
                   '(symbol, marketTicker) =>
                 let currency :=
                   {| Currency.ID := symbol;
                      Currency.FullName := symbol;
                      Currency.Ask := MarketTicker.Ask marketTicker;
                      Currency.Bid := MarketTicker.Bid marketTicker;
                      Currency.Last := MarketTicker.Last marketTicker;
                      Currency.Open := MarketTicker.Open marketTicker;
                      Currency.Low := MarketTicker.Low marketTicker;
                      Currency.High := MarketTicker.High marketTicker;
                      Currency.FeeCurrency := "BTC";
                      Currency.Volume := "";
                      Currency.QuoteVolume := "";
                      Currency.Change := "";
                      Currency.PercentChage := "" |} in
                 append currencies currency)
              None entries in
      let currencyData := {| CurrencyData.Currencies := currencies |} in
      match Marshal (CurrencyData.reflect currencyData) with
      | Err e => Return (http_Error w e StatusInternalServerError)
      | Ok js_ =>
          let w := ResponseWriter.set_header "Content-Type"
                     "application/json" w in
          Return (ResponseWriter.Write js_ w)
      end)).

(** The closure that [main] registers for the pattern [/currency/].  The
    [Values] that [Query] returns is a map of its own, so the [Set] on it
    is performed and lost: the request passed on is the one received. *)
Definition main_currency_route (w : ResponseWriter.t) (r : Request.t)
  : action ResponseWriter.t :=
  let symbol :=
    drop_bytes (String.length "/currency/") (URL.Path (Request.URL r)) in
  if negb (String.eqb symbol "all") then
    let _ := Values_Set (URL.Query (Request.URL r)) "symbol" symbol in
    CurrencyHandler w r
  else
    CurrenciesHandler w r.

(** The two patterns registered in [main], on already-clean paths: the
    pattern without a trailing slash matches that path only, the one with
    a trailing slash matches every path it is a prefix of.  (For a path
    with a doubled slash or a dot segment the library redirects to the
    cleaned path before any handler runs; that step is outside this
    definition, which is to be read on clean paths only.) *)
Definition main_ServeMux (w : ResponseWriter.t) (r : Request.t)
  : action ResponseWriter.t :=
  let path := URL.Path (Request.URL r) in
  if String.eqb path "/currency" then
    Return (http_Redirect w r "/currency/all" StatusMovedPermanently
              "Moved Permanently")
  else if String.prefix "/currency/" path then
    main_currency_route w r
  else
    Return (http_Error w "404 page not found" StatusNotFound).

(** ** The market fetcher and the refresh loop *)

Module Response.
(** An upstream reply: its status code and what reading its body to the
    end yields. *)
Record t : Type := mk {
  StatusCode : nat;
  Body : result string
}.
End Response.

Definition ioutil_ReadAll (body : result string) : result string := body.

Section Fetch.
(** The network as [http.Get] finds it, and [json.Unmarshal] into a
    variable of type [map[string]MarketTicker]. *)
Variable http_Get : string -> result Response.t.
Variable json_Unmarshal : string -> result (gmap string MarketTicker.t).

(** [getMarkets] gets the latest market ticker data for all supported
    symbols and returns a [Markets] object with the data. *)
Definition getMarkets (symbols : list string) : result Markets.t :=
  let endpoint := "https://api.hitbtc.com/api/2/public/ticker" in
  match http_Get endpoint with
  | Err err => Err err
  | Ok resp =>
      match ioutil_ReadAll (Response.Body resp) with
      | Err err => Err err
      | Ok body =>
          match json_Unmarshal body with
          | Err err => Err err
          | Ok marketTickers =>
              let markets := {| Markets.Markets := marketTickers |} in
              Ok markets
          end
      end
  end.

(** One pass through the [case <-ticker.C] branch of the loop in
    [updateMarkets]: the new content of the shared cell and the lines
    logged. *)
Definition updateMarkets_tick (symbols : list string) (markets : Markets.t)
  : Markets.t * list string :=
  let log := ["Updating markets..."] in
  match getMarkets symbols with
  | Err err => (markets, log ++ ["Error updating markets: " +:+ err])
  | Ok newMarkets => (newMarkets, log)
  end.
End Fetch.

(** The shared cell after the ticks of the refresh loop, each of which
    meets the network in a state of its own. *)
Definition updateMarkets_ticks
    (json_Unmarshal : string -> result (gmap string MarketTicker.t))
    (symbols : list string)
    (nets : list (string -> result Response.t)) (markets : Markets.t)
  : Markets.t :=
  foldl (fun markets net =>
           fst (updateMarkets_tick net json_Unmarshal symbols markets))
        markets nets.

(** ** Running a handler *)

Section Serve.
(** The order in which the runtime walks a map. *)
Variable range_order :
  gmap string MarketTicker.t -> list (string * MarketTicker.t).

(** A handler served while the refresh loop is idle: every read finds
    the same [markets]. *)
Fixpoint serve {A} (markets : Markets.t) (p : action A) : A :=
  match p with
  | Return a => a
  | LoadMarkets k => serve markets (k (Markets.Markets markets))
  | RangeOver m k => serve markets (k (range_order m))
  end.

Variable json_Unmarshal : string -> result (gmap string MarketTicker.t).
Variable symbols : list string.

(** A handler served while the refresh loop runs.  The loop and the
    handler interleave at the accesses to the shared cell: [schedule]
    lists, for each successive read of the handler, the ticks that the
    loop completes before that read. *)
Fixpoint serve_during {A} (schedule : list (list (string -> result Response.t)))
    (markets : Markets.t) (p : action A) : A :=
  match p with
  | Return a => a
  | LoadMarkets k =>
      let markets' :=
        updateMarkets_ticks json_Unmarshal symbols (default [] (head schedule))
          markets in
      serve_during (tail schedule) markets' (k (Markets.Markets markets'))
  | RangeOver m k => serve_during schedule markets (k (range_order m))
  end.
End Serve.

(** A walk of a map visits every entry exactly once, in any order. *)
Definition fair_order
    (range_order : gmap string MarketTicker.t -> list (string * MarketTicker.t))
  : Prop :=
  forall m, range_order m ≡ₚ map_to_list m.

(** The two read operations as a client sees them: the response to a
    request on a fresh response writer. *)
Definition GetOne (markets : Markets.t) (r : Request.t) : ResponseWriter.t :=
  serve map_to_list markets (CurrencyHandler ResponseWriter.new r).

Definition GetAll
    (range_order : gmap string MarketTicker.t -> list (string * MarketTicker.t))
    (markets : Markets.t) (r : Request.t) : ResponseWriter.t :=
  serve range_order markets (CurrenciesHandler ResponseWriter.new r).

(** ** A decoder for worked examples

    The theorems below hold for every function standing for
    [json.Unmarshal].  To run the fetcher on a concrete upstream body the
    examples use [Unmarshal_flat], which reads the flat, compact texts
    that an exchange sends (one object of ticker objects whose members
    are the seven tags with plain printable-ASCII string values, without
    white space or escapes) and rejects every other text. *)

Definition plain_char (c : ascii) : bool :=
  let b := byte_val c in
  in_range 32 126 b && negb (b =? 34) && negb (b =? 92).

Definition expect (c : ascii) (s : string) : option string :=
  match s with
  | String c' rest => if Ascii.eqb c c' then Some rest else None
  | EmptyString => None
  end.

(** The characters of a string literal after its opening quote, and the
    text after its closing quote. *)
Fixpoint scan_chars (s : string) : option (string * string) :=
  match s with
  | EmptyString => None
  | String c rest =>
      if Ascii.eqb c dquote then Some ("", rest)
      else if plain_char c then
        '(v, r) ← scan_chars rest; Some (String c v, r)
      else None
  end.

Definition scan_quoted (s : string) : option (string * string) :=
  expect dquote s ≫= scan_chars.

Definition set_field (t : MarketTicker.t) (name value : string)
  : option MarketTicker.t :=
  let '(MarketTicker.mk ask bid last open low high volume) := t in
  if String.eqb name "ask" then
    Some (MarketTicker.mk value bid last open low high volume)
  else if String.eqb name "bid" then
    Some (MarketTicker.mk ask value last open low high volume)
  else if String.eqb name "last" then
    Some (MarketTicker.mk ask bid value open low high volume)
  else if String.eqb name "open" then
    Some (MarketTicker.mk ask bid last value low high volume)
  else if String.eqb name "low" then
    Some (MarketTicker.mk ask bid last open value high volume)
  else if String.eqb name "high" then
    Some (MarketTicker.mk ask bid last open low value volume)
  else if String.eqb name "volume" then
    Some (MarketTicker.mk ask bid last open low high value)
  else None.

Fixpoint scan_fields (fuel : nat) (t : MarketTicker.t) (s : string)
  : option (MarketTicker.t * string) :=
  match fuel with
  | O => None
  | S fuel' =>
      '(name, s) ← scan_quoted s;
      s ← expect ":" s;
      '(value, s) ← scan_quoted s;
      t ← set_field t name value;
      match s with
      | String c s' =>
          if Ascii.eqb c "," then scan_fields fuel' t s'
          else if Ascii.eqb c "}" then Some (t, s')
          else None
      | EmptyString => None
      end
  end.

Definition scan_ticker (s : string) : option (MarketTicker.t * string) :=
  s ← expect "{" s;
  match expect "}" s with
  | Some s' => Some (MarketTicker.zero, s')
  | None => scan_fields (String.length s) MarketTicker.zero s
  end.

Fixpoint scan_entries (fuel : nat) (m : gmap string MarketTicker.t)
    (s : string) : option (gmap string MarketTicker.t * string) :=
  match fuel with
  | O => None
  | S fuel' =>
      '(key, s) ← scan_quoted s;
      s ← expect ":" s;
      '(t, s) ← scan_ticker s;
      let m := <[key := t]> m in
      match s with
      | String c s' =>
          if Ascii.eqb c "," then scan_entries fuel' m s'
          else if Ascii.eqb c "}" then Some (m, s')
          else None
      | EmptyString => None
      end
  end.

Definition Unmarshal_flat (data : string)
  : result (gmap string MarketTicker.t) :=
  let parsed :=
    s ← expect "{" data;
    match expect "}" s with
    | Some s' => Some (∅, s')
    | None => scan_entries (String.length s) ∅ s
    end in
  match parsed with
  | Some (m, EmptyString) => Ok m
  | _ => Err "json: cannot unmarshal"
  end.

(** ** JSON texts

    The grammar of RFC 8259 for texts without insignificant white space,
    over the bytes of their UTF-8 encoding (RFC 3629). *)

Definition byte_between (lo hi : N) (c : ascii) : Prop :=
  lo <= byte_val c <= hi.

Definition utf8_tail (c : ascii) : Prop := byte_between 128 191 c.

(** One code point outside ASCII, encoded on two to four bytes. *)
Inductive utf8_multibyte : string -> Prop :=
| utf8_2 a b :
    byte_between 194 223 a -> utf8_tail b ->
    utf8_multibyte (String a (String b ""))
| utf8_3_E0 a b c :
    byte_val a = 224 -> byte_between 160 191 b -> utf8_tail c ->
    utf8_multibyte (String a (String b (String c "")))
| utf8_3_E1_EC a b c :
    byte_between 225 236 a -> utf8_tail b -> utf8_tail c ->
    utf8_multibyte (String a (String b (String c "")))
| utf8_3_ED a b c :
    byte_val a = 237 -> byte_between 128 159 b -> utf8_tail c ->
    utf8_multibyte (String a (String b (String c "")))
| utf8_3_EE_EF a b c :
    byte_between 238 239 a -> utf8_tail b -> utf8_tail c ->
    utf8_multibyte (String a (String b (String c "")))
| utf8_4_F0 a b c d :
    byte_val a = 240 -> byte_between 144 191 b -> utf8_tail c ->
    utf8_tail d -> utf8_multibyte (String a (String b (String c (String d ""))))
| utf8_4_F1_F3 a b c d :
    byte_between 241 243 a -> utf8_tail b -> utf8_tail c -> utf8_tail d ->
    utf8_multibyte (String a (String b (String c (String d ""))))
| utf8_4_F4 a b c d :
    byte_val a = 244 -> byte_between 128 143 b -> utf8_tail c ->
    utf8_tail d -> utf8_multibyte (String a (String b (String c (String d "")))).

Definition hex_digit (c : ascii) : Prop :=
  byte_between 48 57 c \/ byte_between 97 102 c \/ byte_between 65 70 c.

(** The byte after a backslash in a two-character escape: one of
    the double quote, the backslash, the slash, b, f, n, r, t. *)
Definition escapable (c : ascii) : Prop :=
  byte_val c ∈ [34; 92; 47; 98; 102; 110; 114; 116].

(** The characters between the quotes of a string. *)
Inductive json_chars : string -> Prop :=
| chars_nil : json_chars ""
| chars_ascii c s :
    byte_between 32 127 c -> byte_val c <> 34 -> byte_val c <> 92 ->
    json_chars s -> json_chars (String c s)
| chars_utf8 u s :
    utf8_multibyte u -> json_chars s -> json_chars (u +:+ s)
| chars_escape c s :
    escapable c -> json_chars s ->
    json_chars (String backslash (String c s))
| chars_unicode h1 h2 h3 h4 s :
    hex_digit h1 -> hex_digit h2 -> hex_digit h3 -> hex_digit h4 ->
    json_chars s ->
    json_chars (String backslash
                  (String "u" (String h1 (String h2 (String h3 (String h4 s)))))).

Definition digit (c : ascii) : Prop := byte_between 48 57 c.

Inductive digits : string -> Prop :=
| digits_one c : digit c -> digits (String c "")
| digits_more c s : digit c -> digits s -> digits (String c s).

(** A number: an optional minus, an integer part without leading zero,
    an optional fraction and an optional exponent. *)
Inductive json_int : string -> Prop :=
| int_zero : json_int "0"
| int_digits s : digits s -> ~ (exists t, s = String "0" t) -> json_int s.

Inductive json_frac : string -> Prop :=
| frac_none : json_frac ""
| frac_some s : digits s -> json_frac (String "." s).

Inductive json_exp : string -> Prop :=
| exp_none : json_exp ""
| exp_some e sign s :
    e = "e"%char \/ e = "E"%char ->
    sign = "" \/ sign = "+" \/ sign = "-" ->
    digits s -> json_exp (String e (sign +:+ s)).

Inductive json_number : string -> Prop :=
| number_intro minus i f e :
    minus = "" \/ minus = "-" ->
    json_int i -> json_frac f -> json_exp e ->
    json_number (minus +:+ i +:+ f +:+ e).

Definition quoted (cs : string) : string :=
  String dquote cs +:+ String dquote "".

Inductive json_value : string -> Prop :=
| value_null : json_value "null"
| value_true : json_value "true"
| value_false : json_value "false"
| value_number n : json_number n -> json_value n
| value_string cs : json_chars cs -> json_value (quoted cs)
| value_array_empty : json_value "[]"
| value_array body : json_elements body -> json_value ("[" +:+ body +:+ "]")
| value_object_empty : json_value "{}"
| value_object body : json_members body -> json_value ("{" +:+ body +:+ "}")
with json_elements : string -> Prop :=
| elements_one v : json_value v -> json_elements v
| elements_more v rest :
    json_value v -> json_elements rest -> json_elements (v +:+ "," +:+ rest)
with json_members : string -> Prop :=
| members_one name v :
    json_chars name -> json_value v ->
    json_members (quoted name +:+ ":" +:+ v)
| members_more name v rest :
    json_chars name -> json_value v -> json_members rest ->
    json_members (quoted name +:+ ":" +:+ v +:+ "," +:+ rest).

(** ** Vocabulary of the statements *)

(** The record [c] is the projection of the snapshot entry of key
    [symbol] and ticker [t]: identifier and display name are the key, the
    six price fields are the ticker's, the fee currency is the constant
    BTC and the four optional fields are empty. *)
Definition projects (symbol : string) (t : MarketTicker.t) (c : Currency.t)
  : Prop :=
  Currency.ID c = symbol /\ Currency.FullName c = symbol
  /\ Currency.Ask c = MarketTicker.Ask t
  /\ Currency.Bid c = MarketTicker.Bid t
  /\ Currency.Last c = MarketTicker.Last t
  /\ Currency.Open c = MarketTicker.Open t
  /\ Currency.Low c = MarketTicker.Low t
  /\ Currency.High c = MarketTicker.High t
  /\ Currency.FeeCurrency c = "BTC"
  /\ Currency.Volume c = "" /\ Currency.QuoteVolume c = ""
  /\ Currency.Change c = "" /\ Currency.PercentChage c = "".

(** A complete success response: status 200, the JSON content type and
    the given body. *)
Definition json_response (body : string) : ResponseWriter.t :=
  {| ResponseWriter.Header := {[ "Content-Type" := ["application/json"] ]};
     ResponseWriter.Status := Some StatusOK;
     ResponseWriter.Body := body |}.

(** The response is the success response that carries the encoding of
    the Go value [v]. *)
Definition responds_with (resp : ResponseWriter.t) (v : GoValue) : Prop :=
  exists body, Marshal v = Ok body /\ resp = json_response body.

(** The symbol parameter of a request. *)
Definition symbol_of (r : Request.t) : string :=
  Values_Get (URL.Query (Request.URL r)) "symbol".

(** A transport status of the success class. *)
Definition success_status (code : nat) : Prop := (200 <= code < 300)%nat.

Definition endpoint : string := "https://api.hitbtc.com/api/2/public/ticker".

(** The composite literal that both handlers build from a key and its
    ticker. *)
Definition record_of (symbol : string) (t : MarketTicker.t) : Currency.t :=
  {| Currency.ID := symbol;
     Currency.FullName := symbol;
     Currency.Ask := MarketTicker.Ask t;
     Currency.Bid := MarketTicker.Bid t;
     Currency.Last := MarketTicker.Last t;
     Currency.Open := MarketTicker.Open t;
     Currency.Low := MarketTicker.Low t;
     Currency.High := MarketTicker.High t;
     Currency.FeeCurrency := "BTC";
     Currency.Volume := "";
     Currency.QuoteVolume := "";
     Currency.Change := "";
     Currency.PercentChage := "" |}.

(** The slice that the loop of [CurrenciesHandler] builds, entry by
    entry, from the nil slice. *)
Definition collect (entries : list (string * MarketTicker.t))
  : option (list Currency.t) :=
  foldl (fun (currencies : option (list Currency.t))
             '(symbol, marketTicker) =>
           append currencies (record_of symbol marketTicker))
        None entries.

(** Every way a handler can end, whatever its reads find. *)
Inductive returns {A : Type} : action A -> A -> Prop :=
| returns_here a : returns (Return a) a
| returns_load k m a : returns (k m) a -> returns (LoadMarkets k) a
| returns_range m k l a : returns (k l) a -> returns (RangeOver m k) a.

(** A response that is not a serialization failure and that, unless it
    is a bad-request reply, is a 200 with a JSON text as its body. *)
Definition good_response (resp : ResponseWriter.t) : Prop :=
  ResponseWriter.Status resp <> Some StatusInternalServerError
  /\ (ResponseWriter.Status resp <> Some StatusBadRequest ->
      ResponseWriter.Status resp = Some StatusOK
      /\ json_value (ResponseWriter.Body resp)).

(** The values on which [json.Marshal] cannot fail: no channel and no
    function anywhere inside. *)
Fixpoint encodable (v : GoValue) : bool :=
  match v with
  | VString _ => true
  | VStruct fs => forallb (fun f => encodable f.2) fs
  | VSlice None => true
  | VSlice (Some es) => forallb encodable es
  | VChan | VFunc => false
  end.

(** [marshal] only ever returns JSON texts for [v]. *)
Definition marshals_json (marshal : GoValue -> result string) (v : GoValue)
  : Prop :=
  forall s, marshal v = Ok s -> json_value s.

(** ** Sample data *)

Definition get (path query : string) : Request.t :=
  {| Request.Method := "GET";
     Request.URL := {| URL.Path := path; URL.RawQuery := query |} |}.

Definition ticker_btc : MarketTicker.t :=
  MarketTicker.mk "10" "9" "9.5" "9" "8" "11" "100".

Definition ticker_eth : MarketTicker.t :=
  MarketTicker.mk "0.07" "0.069" "0.0695" "0.068" "0.067" "0.071" "2500".

Definition one_market : Markets.t :=
  {| Markets.Markets := {[ "BTCUSD" := ticker_btc ]} |}.

Definition two_markets : Markets.t :=
  {| Markets.Markets :=
       <["ETHBTC" := ticker_eth]> {[ "BTCUSD" := ticker_btc ]} |}.

Definition empty_market : Markets.t := {| Markets.Markets := ∅ |}.

(** A snapshot whose only key is the empty string. *)
Definition nameless_market : Markets.t :=
  {| Markets.Markets := {[ "" := ticker_btc ]} |}.

Definition market_A : Markets.t :=
  {| Markets.Markets := {[ "A" := ticker_btc ]} |}.

Definition market_B : Markets.t :=
  {| Markets.Markets :=
       {[ "B" := MarketTicker.mk "2" "1" "1.5" "1" "1" "2" "7" ]} |}.

Definition body_B : string :=
  js "{'B':{'ask':'2','bid':'1','last':'1.5','open':'1','low':'1','high':'2','volume':'7'}}".

(** An upstream that cannot be reached, and one that replies. *)
Definition net_down : string -> result Response.t :=
  fun _ => Err "dial tcp: connection refused".

Definition net_replies (code : nat) (body : string)
  : string -> result Response.t :=
  fun _ => Ok {| Response.StatusCode := code; Response.Body := Ok body |}.

(** ** Configuration and startup *)

(** What [log.Output] writes for a message: the date and time header of
    the standard logger, the message, and a newline unless the message
    ends with one. *)
Fixpoint ends_with_newline (s : string) : bool :=
  match s with
  | EmptyString => false
  | String c EmptyString => Ascii.eqb c (byte_of 10)
  | String _ rest => ends_with_newline rest
  end.

Definition log_Output (header s : string) : string :=
  header +:+ s +:+ (if ends_with_newline s then "" else newline).

(** How [main] runs.  It ends at once by [log.Fatalf], with the line
    written, when the configuration or the first snapshot cannot be had.
    Otherwise it starts the refresh loop on the shared cell, which holds
    the first snapshot, and serves; [stop] is the line that [log.Fatal]
    writes if [http.ListenAndServe] ever returns, because the listener
    cannot be opened or fails later, and [None] if it never does. *)
Inductive process : Type :=
| Fatal (line : string)
| Serving (symbols : list string) (markets : Markets.t)
          (stop : option string).

Section Startup.
(** The file system as [ioutil.ReadFile] finds it, and [json.Unmarshal]
    into a variable of type [Config]. *)
Variable ioutil_ReadFile : string -> result string.
Variable json_Unmarshal_Config : string -> result Config.t.

(** [ReadFile] reads a file with the specified name and returns its
    contents as a byte slice. *)
Definition ReadFile (filename : string) : result string :=
  match ioutil_ReadFile filename with
  | Err err => Err err
  | Ok bytes => Ok bytes
  end.

(** [getConfig] loads the configuration data from the config file and
    returns a [Config] object. *)
Definition getConfig : result Config.t :=
  let configFile := "config.json" in
  match ReadFile configFile with
  | Err err => Err err
  | Ok bytes =>
      match json_Unmarshal_Config bytes with
      | Err err => Err err
      | Ok config => Ok config
      end
  end.

(** The date and time header of the line on which the program ends, the
    network at startup, the decoder of tickers, and the error with which
    [http.ListenAndServe] returns on an address, if it ever returns. *)
Variable header : string.
Variable http_Get : string -> result Response.t.
Variable json_Unmarshal : string -> result (gmap string MarketTicker.t).
Variable http_ListenAndServe : string -> option string.

(** [main]. *)
Definition main : process :=
  match getConfig with
  | Err err =>
      Fatal (log_Output header
               ("Error loading configuration: " +:+ err +:+ newline))
  | Ok config =>
      let symbols := Config.Symbols config in
      match getMarkets http_Get json_Unmarshal symbols with
      | Err err =>
          Fatal (log_Output header
                   ("Error getting initial markets: " +:+ err +:+ newline))
      | Ok markets =>
          Serving symbols markets
            (fmap (M := option) (log_Output header)
               (http_ListenAndServe ":8080"))
      end
  end.
End Startup.


(** The content of the shared cell of a process that serves, after the
    given ticks of its refresh loop, each meeting the network in a state
    of its own. *)
Definition snapshot_after
    (json_Unmarshal : string -> result (gmap string MarketTicker.t))
    (nets : list (string -> result Response.t)) (p : process)
  : option Markets.t :=
  match p with
  | Fatal _ => None
  | Serving symbols markets _ =>
      Some (updateMarkets_ticks json_Unmarshal symbols nets markets)
  end.

(** A text that the query parser takes as it stands: no ampersand, no
    semicolon, no percent sign and no plus sign. *)
Fixpoint query_plain (s : string) : bool :=
  match s with
  | EmptyString => true
  | String c rest =>
      negb (Ascii.eqb c "&") && negb (Ascii.eqb c ";")
      && negb (Ascii.eqb c "%") && negb (Ascii.eqb c "+")
      && query_plain rest
  end.

(** A listener that never fails, and one that finds its port taken. *)
Definition serves_forever : string -> option string := fun _ => None.


Definition file_system (name content : string) : string -> result string :=
  fun filename =>
    if String.eqb filename name then Ok content
    else Err ("open " +:+ filename +:+ ": no such file or directory").

(** A decoder of configurations for worked examples, in the manner of
    [Unmarshal_flat]: it reads the compact text of an object whose one
    member [symbols] is a list of plain strings, and rejects every other
    text. *)
Fixpoint scan_strings (fuel : nat) (acc : list string) (s : string)
  : option (list string * string) :=
  match fuel with
  | O => None
  | S fuel' =>
      '(v, s) ← scan_quoted s;
      match s with
      | String c s' =>
          if Ascii.eqb c "," then scan_strings fuel' (acc ++ [v]) s'
          else if Ascii.eqb c "]" then Some (acc ++ [v], s')
          else None
      | EmptyString => None
      end
  end.

Definition Unmarshal_Config_flat (data : string) : result Config.t :=
  let parsed :=
    s ← expect "{" data;
    '(name, s) ← scan_quoted s;
    if String.eqb name "symbols" then
      s ← expect ":" s;
      s ← expect "[" s;
      '(l, s) ← match expect "]" s with
                | Some s' => Some ([], s')
                | None => scan_strings (String.length s) [] s
                end;
      s ← expect "}" s;
      Some (l, s)
    else None in
  match parsed with
  | Some (l, EmptyString) => Ok {| Config.Symbols := l |}
  | _ => Err "json: cannot unmarshal"
  end.

(** * Properties *)

(** ** The library models on concrete inputs *)

Example appendString_plain : appendString "BTCUSD" = js "'BTCUSD'".
Proof. reflexivity. Qed.

Example appendString_escapes :
  appendString (String dquote "<a>" +:+ String (byte_of 10) "")
  = String dquote (String backslash (String dquote
      (String backslash "u003ca" +:+ String backslash "u003e"
         +:+ String backslash "n" +:+ String dquote ""))).
Proof. vm_compute. reflexivity. Qed.

(** An invalid byte becomes U+FFFD, a two-byte character is copied. *)
Example appendString_utf8 :
  appendString (String (byte_of 255) (String (byte_of 195) (String (byte_of 169) "")))
  = String dquote (String backslash "ufffd"
      +:+ String (byte_of 195) (String (byte_of 169) (String dquote ""))).
Proof. vm_compute. reflexivity. Qed.

Example Marshal_nil_slice :
  Marshal (VStruct [("currencies", VSlice None)])
  = Ok (js "{'currencies':null}").
Proof. vm_compute. reflexivity. Qed.

Example Marshal_empty_slice :
  Marshal (VStruct [("currencies", VSlice (Some []))])
  = Ok (js "{'currencies':[]}").
Proof. vm_compute. reflexivity. Qed.

Example Marshal_chan : is_Err (Marshal (VStruct [("c", VChan)])) = true.
Proof. reflexivity. Qed.

Example ParseQuery_symbol :
  Values_Get (ParseQuery "a=1&symbol=BTC%55SD&symbol=x") "symbol" = "BTCUSD".
Proof. vm_compute. reflexivity. Qed.

Example ParseQuery_empty : ParseQuery "" = ∅.
Proof. reflexivity. Qed.

Example Unmarshal_flat_empty : Unmarshal_flat "{}" = Ok ∅.
Proof. reflexivity. Qed.

Example Unmarshal_flat_one :
  Unmarshal_flat
    (js "{'BTCUSD':{'ask':'10','bid':'9','last':'9.5','open':'9','low':'8','high':'11','volume':'100'}}")
  = Ok {[ "BTCUSD" := ticker_btc ]}.
Proof. vm_compute. reflexivity. Qed.

Example Unmarshal_flat_rejects : is_Err (Unmarshal_flat "<html>") = true.
Proof. reflexivity. Qed.

(** ** Bytes and strings *)

Lemma byte_val_bound c : byte_val c < 256.
Proof. apply N_ascii_bounded. Qed.

Lemma byte_val_of n : n < 256 -> byte_val (byte_of n) = n.
Proof. apply N_ascii_embedding. Qed.

Lemma in_range_spec lo hi b : in_range lo hi b = true <-> lo <= b <= hi.
Proof. unfold in_range. rewrite andb_true_iff, !N.leb_le. tauto. Qed.

Lemma append_cons (x : ascii) (a b : string) :
  String x a +:+ b = String x (a +:+ b).
Proof. reflexivity. Qed.

Lemma append_nil_l (b : string) : "" +:+ b = b.
Proof. reflexivity. Qed.

Lemma append_assoc (a b c : string) : (a +:+ b) +:+ c = a +:+ (b +:+ c).
Proof.
  induction a as [|x a IH]; [reflexivity|].
  rewrite !append_cons. f_equal. exact IH.
Qed.

Lemma drop_bytes_length n c rest :
  (0 < n)%nat ->
  (String.length (drop_bytes n (String c rest)) <= String.length rest)%nat.
Proof.
  intros Hn. destruct n as [|n]; [lia|]. cbn [drop_bytes]. clear Hn.
  revert n. induction rest as [|c' rest IH]; intros [|n]; cbn; try lia.
  specialize (IH n). lia.
Qed.

(** ** Decoding a rune *)

Ltac split_comparisons :=
  repeat match goal with
         | |- context [N.ltb ?x ?y] => destruct (N.ltb_spec x y)
         | |- context [N.eqb ?x ?y] => destruct (N.eqb_spec x y)
         end.

Lemma first_seq_cases b sz lo hi :
  first b = first_seq sz lo hi ->
  (sz = 2%nat /\ 194 <= b <= 223 /\ lo = 128 /\ hi = 191)
  \/ (sz = 3%nat /\ b = 224 /\ lo = 160 /\ hi = 191)
  \/ (sz = 3%nat /\ 225 <= b <= 236 /\ lo = 128 /\ hi = 191)
  \/ (sz = 3%nat /\ b = 237 /\ lo = 128 /\ hi = 159)
  \/ (sz = 3%nat /\ 238 <= b <= 239 /\ lo = 128 /\ hi = 191)
  \/ (sz = 4%nat /\ b = 240 /\ lo = 144 /\ hi = 191)
  \/ (sz = 4%nat /\ 241 <= b <= 243 /\ lo = 128 /\ hi = 191)
  \/ (sz = 4%nat /\ b = 244 /\ lo = 128 /\ hi = 143).
Proof.
  unfold first, locb, hicb. split_comparisons; intros [= <- <- <-]; lia.
Qed.

Lemma first_as_lt b : first b = first_as -> b < 128.
Proof. unfold first. split_comparisons; intros [=]; lia. Qed.

Lemma RuneError_size_one r size :
  (r, size) = (RuneError, 1%nat) -> (r =? RuneError) && (size =? 1)%nat = true.
Proof. intros [= -> ->]. reflexivity. Qed.

Ltac decode_split :=
  match goal with
  | H : context [negb (in_range ?lo ?hi ?b)] |- _ =>
      let E := fresh "E" in
      destruct (in_range lo hi b) eqn:E; cbn [negb] in H;
      [ apply in_range_spec in E | ]
  | H : (RuneError, 1%nat) = (_, _) |- _ =>
      symmetry in H; apply RuneError_size_one in H; congruence
  end.

(** Unless it reports an invalid byte, the decoder has read one
    well-formed multi-byte character. *)
Lemma DecodeRuneInString_valid c rest r size :
  128 <= byte_val c ->
  DecodeRuneInString (take_bytes UTFMax (String c rest)) = (r, size) ->
  (r =? RuneError) && (size =? 1)%nat = false ->
  utf8_multibyte (take_bytes size (String c rest)) /\ (0 < size)%nat.
Proof.
  intros Hc H Hne. unfold UTFMax in H.
  unfold DecodeRuneInString in H. cbn [take_bytes] in H.
  destruct (first (byte_val c)) as [| |sz lo hi] eqn:F.
  - apply first_as_lt in F. lia.
  - decode_split.
  - unfold utf8_tail, byte_between, locb, hicb in *.
    destruct rest as [|c1 [|c2 [|c3 r4]]]; cbn [take_bytes] in H;
      apply first_seq_cases in F;
      destruct F as [F|[F|[F|[F|[F|[F|[F|F]]]]]]];
      destruct F as (-> & F & -> & ->);
      cbn [Nat.leb] in H;
      repeat decode_split;
      injection H as <- <-; cbn [take_bytes];
      (split; [|lia]);
      solve [ constructor; unfold utf8_tail, byte_between, locb, hicb; lia ].
Qed.

(** ** The string encoder writes JSON strings *)

Lemma hex_is_hex_digit n : n < 16 -> hex_digit (hex n).
Proof.
  intros Hn. unfold hex, hex_digit, byte_between.
  destruct (N.ltb_spec n 10); rewrite byte_val_of by lia; lia.
Qed.

Lemma literal_hex_digit c :
  in_range 48 57 (byte_val c) || in_range 97 102 (byte_val c) = true ->
  hex_digit c.
Proof.
  rewrite orb_true_iff, !in_range_spec. unfold hex_digit, byte_between. tauto.
Qed.

Lemma escape_byte_chars b s :
  b < 128 -> json_chars s -> json_chars (escape_byte b +:+ s).
Proof.
  intros Hb Hs. unfold escape_byte.
  repeat match goal with
         | |- context [N.eqb ?x ?y] => destruct (N.eqb_spec x y); cbn [orb]
         end;
    try (subst b; apply chars_escape; [vm_compute; set_solver | exact Hs]).
  cbn [String.append]. apply chars_unicode; try exact Hs;
    try (apply literal_hex_digit; reflexivity).
  - apply hex_is_hex_digit. rewrite N.shiftr_div_pow2.
    apply N.Div0.div_lt_upper_bound. change (2 ^ 4 * 16) with 256. lia.
  - apply hex_is_hex_digit. change 15 with (N.ones 4). rewrite N.land_ones.
    apply N.mod_lt. discriminate.
Qed.

Lemma appendString_loop_chars fuel src :
  json_chars (appendString_loop fuel src).
Proof.
  revert src. induction fuel as [|fuel IH]; intros src; cbn [appendString_loop].
  - constructor.
  - destruct src as [|c rest]; [constructor|].
    cbv zeta. unfold RuneSelf.
    destruct (N.ltb_spec (byte_val c) 128) as [Hlt|Hge].
    + destruct (htmlSafeSet (byte_val c)) eqn:Hsafe.
      * cbn [String.append]. unfold htmlSafeSet in Hsafe.
        repeat (apply andb_prop in Hsafe; destruct Hsafe as [Hsafe ?]).
        repeat match goal with
               | H : negb (_ =? _) = true |- _ =>
                   apply negb_true_iff, N.eqb_neq in H
               end.
        apply N.leb_le in Hsafe.
        apply chars_ascii; [unfold byte_between; lia | lia | lia | apply IH].
      * apply escape_byte_chars; [exact Hlt | apply IH].
    + destruct (DecodeRuneInString (take_bytes UTFMax (String c rest)))
        as [r size] eqn:Hdec.
      destruct ((r =? RuneError) && (size =? 1)%nat) eqn:Hbad.
      * cbn [String.append].
        apply chars_unicode; [..|apply IH];
          apply literal_hex_digit; reflexivity.
      * destruct (DecodeRuneInString_valid _ _ _ _ Hge Hdec Hbad) as [Hu _].
        destruct ((r =? 8232) || (r =? 8233)) eqn:Hsep.
        -- cbn [String.append].
           apply chars_unicode; [..|apply IH];
             try (apply literal_hex_digit; reflexivity).
           apply orb_true_iff in Hsep.
           destruct Hsep as [->%N.eqb_eq | ->%N.eqb_eq];
             apply literal_hex_digit; reflexivity.
        -- apply chars_utf8; [exact Hu | apply IH].
Qed.

Lemma appendString_json s : json_value (appendString s).
Proof.
  unfold appendString. cbn [String.append].
  apply value_string with (cs := appendString_loop (String.length s) s).
  apply appendString_loop_chars.
Qed.

(** The loop is never cut short: fuel beyond the length of the input
    changes nothing, so [appendString] encodes all of its argument. *)
Lemma appendString_loop_fuel src : forall fuel fuel',
  (String.length src <= fuel)%nat -> (String.length src <= fuel')%nat ->
  appendString_loop fuel src = appendString_loop fuel' src.
Proof.
  remember (String.length src) as n eqn:Hn.
  assert (Hle : (String.length src <= n)%nat) by lia. clear Hn.
  revert src Hle. induction n as [|n IH]; intros src Hle fuel fuel' H1 H2.
  - destruct src; [|cbn in Hle; lia]. destruct fuel, fuel'; reflexivity.
  - destruct src as [|c rest]; [destruct fuel, fuel'; reflexivity|].
    cbn in Hle.
    destruct fuel as [|fuel]; [lia|]. destruct fuel' as [|fuel']; [lia|].
    cbn [appendString_loop]. cbv zeta.
    destruct (byte_val c <? RuneSelf) eqn:Hlt.
    + f_equal. apply IH; lia.
    + unfold RuneSelf in Hlt. apply N.ltb_ge in Hlt.
      destruct (DecodeRuneInString (take_bytes UTFMax (String c rest)))
        as [r size] eqn:Hdec.
      assert (Hsz : (0 < size)%nat).
      { destruct ((r =? RuneError) && (size =? 1)%nat) eqn:Hbad.
        - apply andb_prop in Hbad. destruct Hbad as [_ Hs].
          apply Nat.eqb_eq in Hs. lia.
        - apply (DecodeRuneInString_valid _ _ _ _ Hlt Hdec Hbad). }
      pose proof (drop_bytes_length size c rest Hsz).
      assert (appendString_loop fuel (drop_bytes size (String c rest))
              = appendString_loop fuel' (drop_bytes size (String c rest)))
        as -> by (apply IH; lia).
      reflexivity.
Qed.

(** ** [json.Marshal] writes JSON texts *)

Lemma GoValue_nested_ind (P : GoValue -> Prop)
    (Hstring : forall s, P (VString s))
    (Hstruct : forall fs, Forall (fun f => P f.2) fs -> P (VStruct fs))
    (Hnil : P (VSlice None))
    (Hslice : forall es, Forall P es -> P (VSlice (Some es)))
    (Hchan : P VChan) (Hfunc : P VFunc) :
  forall v, P v.
Proof.
  fix IH 1. intros [s|fs|[es|]| |].
  - apply Hstring.
  - apply Hstruct. induction fs as [|[name f] fs IHfs]; constructor.
    + apply IH.
    + exact IHfs.
  - apply Hslice. induction es as [|e es IHes]; constructor.
    + apply IH.
    + exact IHes.
  - exact Hnil.
  - exact Hchan.
  - exact Hfunc.
Qed.

Lemma encode_elems_json marshal es : forall first_elem out,
  Forall (marshals_json marshal) es ->
  encode_elems marshal es first_elem = Ok out ->
  (es = [] /\ out = "]")
  \/ exists body, json_elements body
                  /\ out = comma_unless first_elem +:+ body +:+ "]".
Proof.
  induction es as [|e es IH]; intros first_elem out Hall Hout.
  - left. cbn in Hout. split; congruence.
  - right. cbn [encode_elems] in Hout.
    apply Forall_cons in Hall. destruct Hall as [He Hall].
    destruct (marshal e) as [enc|] eqn:Henc; [|discriminate].
    destruct (encode_elems marshal es false) as [rest|] eqn:Hrest;
      [|discriminate].
    injection Hout as <-.
    destruct (IH false rest Hall Hrest) as [[-> ->] | (body & Hbody & ->)].
    + exists enc. split; [apply elements_one, He, Henc | reflexivity].
    + exists (enc +:+ "," +:+ body). split.
      * apply elements_more; [apply He, Henc | exact Hbody].
      * cbn [comma_unless]. now rewrite !append_assoc.
Qed.

Lemma encode_fields_json marshal fs : forall first_elem out,
  Forall (fun f => marshals_json marshal f.2) fs ->
  encode_fields marshal fs first_elem = Ok out ->
  (fs = [] /\ out = "}")
  \/ exists body, json_members body
                  /\ out = comma_unless first_elem +:+ body +:+ "}".
Proof.
  induction fs as [|[name fv] fs IH]; intros first_elem out Hall Hout.
  - left. cbn in Hout. split; congruence.
  - right. cbn [encode_fields] in Hout.
    apply Forall_cons in Hall. destruct Hall as [Hf Hall]. cbn in Hf.
    destruct (marshal fv) as [enc|] eqn:Henc; [|discriminate].
    destruct (encode_fields marshal fs false) as [rest|] eqn:Hrest;
      [|discriminate].
    injection Hout as <-.
    pose proof (appendString_loop_chars (String.length name) name) as Hname.
    change (appendString name)
      with (quoted (appendString_loop (String.length name) name)).
    destruct (IH false rest Hall Hrest) as [[-> ->] | (body & Hbody & ->)].
    + eexists. split; [apply members_one; [exact Hname | apply Hf, Henc]|].
      now rewrite !append_assoc.
    + eexists. split;
        [apply members_more; [exact Hname | apply Hf, Henc | exact Hbody]|].
      cbn [comma_unless]. now rewrite !append_assoc.
Qed.

(** Whatever [json.Marshal] returns without error is a JSON text. *)
Lemma Marshal_json v : marshals_json Marshal v.
Proof.
  induction v as [s|fs IH| |es IH| |] using GoValue_nested_ind;
    intros out Hout; cbn [Marshal] in Hout; try discriminate.
  - injection Hout as <-. apply appendString_json.
  - destruct (encode_fields Marshal fs true) as [body|] eqn:Hbody;
      [|discriminate].
    injection Hout as <-.
    destruct (encode_fields_json _ _ _ _ IH Hbody)
      as [[-> ->] | (members & Hm & ->)].
    + apply value_object_empty.
    + cbn [comma_unless]. rewrite append_nil_l. now apply value_object.
  - injection Hout as <-. apply value_null.
  - destruct (encode_elems Marshal es true) as [body|] eqn:Hbody;
      [|discriminate].
    injection Hout as <-.
    destruct (encode_elems_json _ _ _ _ IH Hbody)
      as [[-> ->] | (elems & He & ->)].
    + apply value_array_empty.
    + cbn [comma_unless]. rewrite append_nil_l. now apply value_array.
Qed.

Lemma encode_elems_ok marshal es : forall first_elem,
  Forall (fun e => exists s, marshal e = Ok s) es ->
  exists out, encode_elems marshal es first_elem = Ok out.
Proof.
  induction es as [|e es IH]; intros first_elem Hall; cbn [encode_elems].
  - eauto.
  - apply Forall_cons in Hall. destruct Hall as [[enc ->] Hall].
    destruct (IH false Hall) as [rest ->]. eauto.
Qed.

Lemma encode_fields_ok marshal fs : forall first_elem,
  Forall (fun f => exists s, marshal f.2 = Ok s) fs ->
  exists out, encode_fields marshal fs first_elem = Ok out.
Proof.
  induction fs as [|[name fv] fs IH]; intros first_elem Hall;
    cbn [encode_fields].
  - eauto.
  - apply Forall_cons in Hall. destruct Hall as [[enc Henc] Hall].
    cbn in Henc. rewrite Henc.
    destruct (IH false Hall) as [rest ->]. eauto.
Qed.

(** [json.Marshal] succeeds on every value free of channels and
    functions. *)
Lemma Marshal_encodable v :
  encodable v = true -> exists s, Marshal v = Ok s.
Proof.
  induction v as [s|fs IH| |es IH| |] using GoValue_nested_ind;
    cbn [encodable Marshal]; intros Henc; try discriminate; eauto.
  - destruct (encode_fields_ok Marshal fs true) as [out ->]; eauto.
    rewrite forallb_forall in Henc. rewrite Forall_forall in IH |- *.
    intros f Hf. apply IH; [exact Hf|]. apply Henc. now apply list_elem_of_In.
  - destruct (encode_elems_ok Marshal es true) as [out ->]; eauto.
    rewrite forallb_forall in Henc. rewrite Forall_forall in IH |- *.
    intros f Hf. apply IH; [exact Hf|]. apply Henc. now apply list_elem_of_In.
Qed.

Lemma Currency_encodable c : encodable (Currency.reflect c) = true.
Proof. reflexivity. Qed.

Lemma CurrencyData_encodable d : encodable (CurrencyData.reflect d) = true.
Proof.
  destruct d as [[l|]]; [|reflexivity].
  cbn. rewrite andb_true_r. induction l as [|c l IH]; [reflexivity|].
  cbn. exact IH.
Qed.

(** ** Responses *)

Lemma write_json_new body :
  ResponseWriter.Write body
    (ResponseWriter.set_header "Content-Type" "application/json"
       ResponseWriter.new)
  = json_response body.
Proof.
  unfold ResponseWriter.Write, ResponseWriter.set_header, json_response,
    ResponseWriter.WriteHeader, ResponseWriter.new, Values_Set.
  cbn [ResponseWriter.Header ResponseWriter.Status ResponseWriter.Body].
  rewrite insert_empty. reflexivity.
Qed.

Lemma http_Error_new msg code :
  http_Error ResponseWriter.new msg code
  = {| ResponseWriter.Header :=
         <["X-Content-Type-Options" := ["nosniff"]]>
           {[ "Content-Type" := ["text/plain; charset=utf-8"] ]};
       ResponseWriter.Status := Some code;
       ResponseWriter.Body := msg +:+ newline |}.
Proof.
  unfold http_Error, ResponseWriter.Write, ResponseWriter.set_header,
    ResponseWriter.del_header, ResponseWriter.WriteHeader,
    ResponseWriter.new, Values_Set.
  cbn [ResponseWriter.Header ResponseWriter.Status ResponseWriter.Body].
  rewrite delete_empty, insert_empty. reflexivity.
Qed.

Lemma responds_with_status resp v :
  responds_with resp v -> ResponseWriter.Status resp = Some StatusOK.
Proof. intros (body & _ & ->). reflexivity. Qed.

Lemma projects_record_of symbol t c :
  projects symbol t c <-> c = record_of symbol t.
Proof.
  unfold projects, record_of. split.
  - destruct c; cbn. intuition congruence.
  - intros ->. cbn. repeat split.
Qed.

Lemma Marshal_record_ok symbol t :
  exists body, Marshal (Currency.reflect (record_of symbol t)) = Ok body.
Proof. apply Marshal_encodable, Currency_encodable. Qed.

(** ** The two handlers, case by case *)

Lemma GetOne_unfold markets r :
  GetOne markets r =
    if String.eqb (symbol_of r) "" then
      http_Error ResponseWriter.new "No symbol specified" StatusBadRequest
    else
      match Markets.Markets markets !! symbol_of r with
      | None =>
          http_Error ResponseWriter.new "Invalid symbol specified"
            StatusBadRequest
      | Some t =>
          match Marshal (Currency.reflect (record_of (symbol_of r) t)) with
          | Err e => http_Error ResponseWriter.new e StatusInternalServerError
          | Ok body => json_response body
          end
      end.
Proof.
  unfold GetOne, CurrencyHandler. fold (symbol_of r).
  destruct (String.eqb (symbol_of r) ""); [reflexivity|].
  cbn [serve].
  destruct (Markets.Markets markets !! symbol_of r) as [t|] eqn:Ht;
    [|reflexivity].
  cbn [serve]. rewrite Ht.
  change (default MarketTicker.zero (Some t)) with t. cbv zeta.
  fold (record_of (symbol_of r) t).
  destruct (Marshal (Currency.reflect (record_of (symbol_of r) t)));
    cbn [serve]; [apply write_json_new | reflexivity].
Qed.

Lemma GetOne_record markets r t :
  symbol_of r <> "" ->
  Markets.Markets markets !! symbol_of r = Some t ->
  responds_with (GetOne markets r)
    (Currency.reflect (record_of (symbol_of r) t)).
Proof.
  intros Hne Ht. rewrite GetOne_unfold.
  apply String.eqb_neq in Hne. rewrite Hne, Ht.
  destruct (Marshal_record_ok (symbol_of r) t) as [body Hbody].
  rewrite Hbody. exists body. split; [exact Hbody | reflexivity].
Qed.

Lemma collect_foldl entries : forall acc,
  foldl (fun (currencies : option (list Currency.t))
             '(symbol, marketTicker) =>
           append currencies (record_of symbol marketTicker))
        acc entries
  = match entries with
    | [] => acc
    | _ => Some (slice_elems acc
                   ++ ((fun e => record_of e.1 e.2) <$> entries))
    end.
Proof.
  induction entries as [|[k t] entries IH]; intros acc; [reflexivity|].
  cbn [foldl]. rewrite IH. unfold append at 2.
  destruct entries as [|e entries]; cbn [slice_elems fmap list_fmap].
  - reflexivity.
  - now rewrite <- app_assoc.
Qed.

Lemma collect_elems entries :
  slice_elems (collect entries) = (fun e => record_of e.1 e.2) <$> entries.
Proof.
  unfold collect. rewrite collect_foldl. now destruct entries.
Qed.

(** The slice stays nil exactly when the loop body never runs. *)
Lemma collect_nil_iff entries : collect entries = None <-> entries = [].
Proof.
  unfold collect. rewrite collect_foldl. destruct entries; split; congruence.
Qed.

Lemma GetAll_unfold order markets r :
  GetAll order markets r =
    match Marshal (CurrencyData.reflect
                     {| CurrencyData.Currencies :=
                          collect (order (Markets.Markets markets)) |}) with
    | Err e => http_Error ResponseWriter.new e StatusInternalServerError
    | Ok body => json_response body
    end.
Proof.
  unfold GetAll, CurrenciesHandler. cbn [serve]. cbv zeta.
  fold (collect (order (Markets.Markets markets))).
  destruct (Marshal _); cbn [serve]; [apply write_json_new | reflexivity].
Qed.

Lemma fair_map_to_list : fair_order map_to_list.
Proof. intros m. reflexivity. Qed.

Lemma GetAll_empty order r :
  fair_order order ->
  GetAll order empty_market r = json_response (js "{'currencies':null}").
Proof.
  intros Hfair. rewrite GetAll_unfold. cbn [Markets.Markets empty_market].
  assert (order ∅ = []) as ->.
  { apply Permutation_nil_r. rewrite (Hfair ∅). now rewrite map_to_list_empty. }
  reflexivity.
Qed.

(** Any segment other than [all] sends the request, unchanged, to
    [CurrencyHandler]. *)
Lemma main_currency_route_other w r :
  drop_bytes (String.length "/currency/") (URL.Path (Request.URL r)) <> "all" ->
  main_currency_route w r = CurrencyHandler w r.
Proof.
  intros Hne. unfold main_currency_route.
  apply String.eqb_neq in Hne. now rewrite Hne.
Qed.

(** Under the pattern [/currency/], whatever segment other than [all]
    follows, the answer of [main_ServeMux] is that of [CurrencyHandler]
    on the request as received: the segment is not passed on.  The
    dispatch is that of the library for clean paths, the only ones it
    is used on below. *)
Lemma main_ServeMux_currency markets seg query :
  seg <> "all" ->
  serve map_to_list markets
    (main_ServeMux ResponseWriter.new (get ("/currency/" +:+ seg) query))
  = GetOne markets (get ("/currency/" +:+ seg) query).
Proof.
  intros Hne. unfold main_ServeMux, get. cbn [Request.URL URL.Path].
  assert (String.eqb ("/currency/" +:+ seg) "/currency" = false) as ->
    by (vm_compute; reflexivity).
  assert (String.prefix "/currency/" ("/currency/" +:+ seg) = true) as ->
    by (destruct seg; reflexivity).
  rewrite main_currency_route_other; [reflexivity|].
  cbn [Request.URL URL.Path]. exact Hne.
Qed.

(** The answer of [CurrencyHandler] depends on the query string only. *)
Lemma GetOne_path_irrelevant markets path path' query :
  GetOne markets (get path query) = GetOne markets (get path' query).
Proof. rewrite !GetOne_unfold. reflexivity. Qed.

(** ** Every path through a handler *)

Lemma serve_returns {A} order markets (p : action A) :
  returns p (serve order markets p).
Proof.
  induction p as [a|k IH|m k IH]; cbn [serve].
  - constructor.
  - eapply returns_load, IH.
  - eapply returns_range, IH.
Qed.

Lemma serve_during_returns {A} order dec symbols (p : action A) :
  forall schedule markets,
    returns p (serve_during order dec symbols schedule markets p).
Proof.
  induction p as [a|k IH|m k IH]; intros schedule markets;
    cbn [serve_during].
  - constructor.
  - eapply returns_load, IH.
  - eapply returns_range, IH.
Qed.

Lemma returns_Return_inv {A} (a b : A) : returns (Return a) b -> b = a.
Proof. inversion 1. reflexivity. Qed.

Lemma returns_Load_inv {A} k (a : A) :
  returns (LoadMarkets k) a -> exists m, returns (k m) a.
Proof. inversion 1. eauto. Qed.

Lemma returns_Range_inv {A} m k (a : A) :
  returns (RangeOver m k) a -> exists l, returns (k l) a.
Proof. inversion 1. eauto. Qed.

Lemma good_bad_request msg :
  good_response (http_Error ResponseWriter.new msg StatusBadRequest).
Proof.
  rewrite http_Error_new. split; cbn [ResponseWriter.Status].
  - discriminate.
  - intros H. now contradiction H.
Qed.

Lemma good_marshalled v :
  encodable v = true ->
  good_response
    match Marshal v with
    | Err e => http_Error ResponseWriter.new e StatusInternalServerError
    | Ok body => json_response body
    end.
Proof.
  intros Henc. destruct (Marshal_encodable v Henc) as [body Hbody].
  rewrite Hbody.
  split; cbn [json_response ResponseWriter.Status ResponseWriter.Body].
  - discriminate.
  - intros _. split; [reflexivity|]. now apply (Marshal_json v).
Qed.

Lemma write_or_fail_good v resp :
  encodable v = true ->
  returns
    match Marshal v with
    | Err e =>
        Return (http_Error ResponseWriter.new e StatusInternalServerError)
    | Ok js_ =>
        Return (ResponseWriter.Write js_
                  (ResponseWriter.set_header "Content-Type"
                     "application/json" ResponseWriter.new))
    end resp ->
  good_response resp.
Proof.
  intros Henc Hret. pose proof (good_marshalled v Henc) as Hgood.
  destruct (Marshal v) as [body|e]; apply returns_Return_inv in Hret;
    subst resp; [rewrite write_json_new|]; exact Hgood.
Qed.

Lemma CurrencyHandler_good r resp :
  returns (CurrencyHandler ResponseWriter.new r) resp -> good_response resp.
Proof.
  unfold CurrencyHandler. intros Hret.
  destruct (String.eqb _ "").
  { apply returns_Return_inv in Hret. subst resp. apply good_bad_request. }
  apply returns_Load_inv in Hret. destruct Hret as [m Hret].
  destruct (m !! _).
  2:{ apply returns_Return_inv in Hret. subst resp. apply good_bad_request. }
  apply returns_Load_inv in Hret. destruct Hret as [m' Hret].
  cbv zeta in Hret.
  match type of Hret with
  | returns (match Marshal (Currency.reflect ?c) with _ => _ end) _ =>
      exact (write_or_fail_good _ _ (Currency_encodable c) Hret)
  end.
Qed.

Lemma CurrenciesHandler_good r resp :
  returns (CurrenciesHandler ResponseWriter.new r) resp ->
  ResponseWriter.Status resp = Some StatusOK /\ good_response resp.
Proof.
  unfold CurrenciesHandler. intros Hret.
  apply returns_Load_inv in Hret. destruct Hret as [m Hret].
  apply returns_Range_inv in Hret. destruct Hret as [l Hret].
  cbv zeta in Hret.
  match type of Hret with
  | returns (match Marshal (CurrencyData.reflect ?d) with _ => _ end) _ =>
      pose proof (CurrencyData_encodable d) as Henc;
      pose proof (write_or_fail_good _ _ Henc Hret) as Hgood
  end.
  split; [|exact Hgood].
  destruct (Marshal_encodable _ Henc) as [body Hbody].
  rewrite Hbody in Hret. apply returns_Return_inv in Hret. subst resp.
  now rewrite write_json_new.
Qed.

(** ** Handlers beside the refresh loop *)

(** [CurrenciesHandler] reads the shared cell once: whatever the loop
    does meanwhile, it answers from one whole snapshot, the one in place
    at its read. *)
Lemma GetAll_during_one_snapshot order dec symbols schedule markets r :
  serve_during order dec symbols schedule markets
    (CurrenciesHandler ResponseWriter.new r)
  = GetAll order
      (updateMarkets_ticks dec symbols (default [] (head schedule)) markets) r.
Proof.
  unfold GetAll, CurrenciesHandler. cbn [serve_during serve]. cbv zeta.
  now destruct (Marshal _).
Qed.

(** [CurrencyHandler] answers from one whole snapshot when no tick falls
    between its two reads. *)
Lemma GetOne_during_quiet dec symbols ticks rest markets r :
  serve_during map_to_list dec symbols (ticks :: [] :: rest) markets
    (CurrencyHandler ResponseWriter.new r)
  = GetOne (updateMarkets_ticks dec symbols ticks markets) r.
Proof.
  unfold GetOne, CurrencyHandler.
  destruct (String.eqb _ ""); [reflexivity|].
  cbn [serve_during serve head tail default updateMarkets_ticks foldl].
  destruct (_ !! _); [|reflexivity].
  cbn [serve_during serve head tail default updateMarkets_ticks foldl].
  cbv zeta. now destruct (Marshal _).
Qed.

(** When ticks fall between the two reads of [CurrencyHandler], the
    presence of the symbol is decided on the snapshot before them and the
    ticker is taken from the snapshot after them, the zero ticker if the
    symbol is gone. *)
Lemma GetOne_straddling_refresh dec symbols ticks rest markets r t :
  symbol_of r <> "" ->
  Markets.Markets markets !! symbol_of r = Some t ->
  responds_with
    (serve_during map_to_list dec symbols ([] :: ticks :: rest) markets
       (CurrencyHandler ResponseWriter.new r))
    (Currency.reflect
       (record_of (symbol_of r)
          (default MarketTicker.zero
             (Markets.Markets (updateMarkets_ticks dec symbols ticks markets)
                !! symbol_of r)))).
Proof.
  intros Hne Ht. unfold CurrencyHandler. cbv zeta. fold (symbol_of r).
  apply String.eqb_neq in Hne. rewrite Hne.
  cbn [serve_during head tail from_option id updateMarkets_ticks foldl].
  rewrite Ht.
  cbn [serve_during head tail from_option id].
  set (t' := default MarketTicker.zero _).
  fold (record_of (symbol_of r) t').
  destruct (Marshal_record_ok (symbol_of r) t') as [body Hbody].
  rewrite Hbody. cbn [serve_during]. exists body.
  split; [exact Hbody | apply write_json_new].
Qed.

(** * The claims *)

(** ** GetOne *)

(** The worked example of the specification: the snapshot with the one
    entry BTCUSD, asked for BTCUSD. *)
Example GetOne_BTCUSD :
  GetOne one_market (get "/currency/BTCUSD" "symbol=BTCUSD")
  = json_response
      (js "{'id':'BTCUSD','fullName':'BTCUSD','ask':'10','bid':'9','last':'9.5','open':'9','low':'8','high':'11','feeCurrency':'BTC','volume':'','quoteVolume':'','change':'','percentChange':''}").
Proof. vm_compute. reflexivity. Qed.

(** Claim C1, amended.  For every non-empty symbol [S] that is a key of
    the current snapshot, a request whose symbol parameter is [S] is
    answered with status 200 and the JSON encoding of one record: id and
    fullName are [S], ask, bid, last, open, low and high are the fields of
    the snapshot's ticker unchanged, feeCurrency is BTC, and volume,
    quoteVolume, change and percentChange are empty. *)
Theorem GetOne_present markets r S t :
  symbol_of r = S -> S <> "" ->
  Markets.Markets markets !! S = Some t ->
  exists c, projects S t c
            /\ responds_with (GetOne markets r) (Currency.reflect c).
Proof.
  intros <- Hne Ht. exists (record_of (symbol_of r) t). split.
  - now apply projects_record_of.
  - now apply GetOne_record.
Qed.

Lemma GetOne_present_witness :
  exists c, projects "BTCUSD" ticker_btc c
            /\ responds_with
                 (GetOne one_market (get "/currency/BTCUSD" "symbol=BTCUSD"))
                 (Currency.reflect c).
Proof.
  apply (GetOne_present one_market (get "/currency/BTCUSD" "symbol=BTCUSD")
           "BTCUSD" ticker_btc).
  - vm_compute. reflexivity.
  - discriminate.
  - vm_compute. reflexivity.
Defined.

(** Claim C1 as stated fails for the empty symbol.  The snapshot has an
    entry under the empty key, the request's symbol parameter is that
    key, and the answer is the bad-request reply, not a record. *)
Lemma GetOne_empty_key_cex :
  let r := get "/currency/" "symbol=" in
  Markets.Markets nameless_market !! symbol_of r = Some ticker_btc
  /\ GetOne nameless_market r
     = http_Error ResponseWriter.new "No symbol specified" StatusBadRequest
  /\ ~ exists c, projects (symbol_of r) ticker_btc c
                 /\ responds_with (GetOne nameless_market r)
                      (Currency.reflect c).
Proof.
  intros r.
  assert (Hget : GetOne nameless_market r
     = http_Error ResponseWriter.new "No symbol specified" StatusBadRequest)
    by (rewrite GetOne_unfold; reflexivity).
  split; [vm_compute; reflexivity|]. split; [exact Hget|].
  intros (c & _ & Hresp). apply responds_with_status in Hresp.
  rewrite Hget, http_Error_new in Hresp. discriminate.
Qed.

(** Claim C2.  When the symbol parameter is empty or absent, or is not a
    key of the current snapshot, the handler answers with status 400 and
    a plain-text message: [No symbol specified] in the first case,
    the different message [Invalid symbol specified] otherwise.  The
    handler is a total function, and the answer is never a success
    response, whatever value one takes it to carry. *)
Theorem GetOne_bad_request markets r :
  symbol_of r = "" \/ Markets.Markets markets !! symbol_of r = None ->
  let message :=
    if decide (symbol_of r = "") then "No symbol specified"
    else "Invalid symbol specified" in
  GetOne markets r = http_Error ResponseWriter.new message StatusBadRequest
  /\ ResponseWriter.Status (GetOne markets r) = Some 400%nat
  /\ ResponseWriter.Body (GetOne markets r) = message +:+ newline
  /\ "No symbol specified" <> "Invalid symbol specified"
  /\ forall v, ~ responds_with (GetOne markets r) v.
Proof.
  intros Hbad message.
  assert (Hget : GetOne markets r
            = http_Error ResponseWriter.new message StatusBadRequest).
  { rewrite GetOne_unfold. unfold message.
    destruct (decide (symbol_of r = "")) as [He|Hne].
    - now rewrite He.
    - destruct Hbad as [He|Hnone]; [contradiction|].
      apply String.eqb_neq in Hne. now rewrite Hne, Hnone. }
  split; [exact Hget|]. rewrite Hget, http_Error_new.
  cbn [ResponseWriter.Status ResponseWriter.Body].
  repeat split; [discriminate|].
  intros v Hv%responds_with_status. discriminate.
Qed.

Lemma GetOne_bad_request_witness :
  (ResponseWriter.Status (GetOne one_market (get "/currency/BTCUSD" ""))
     = Some 400%nat
   /\ ResponseWriter.Body (GetOne one_market (get "/currency/BTCUSD" ""))
     = "No symbol specified" +:+ newline)
  /\ (ResponseWriter.Status
        (GetOne one_market (get "/currency/x" "symbol=ETHBTC"))
       = Some 400%nat
      /\ ResponseWriter.Body
           (GetOne one_market (get "/currency/x" "symbol=ETHBTC"))
       = "Invalid symbol specified" +:+ newline).
Proof.
  assert (H1 : symbol_of (get "/currency/BTCUSD" "") = ""
               \/ Markets.Markets one_market
                    !! symbol_of (get "/currency/BTCUSD" "") = None).
  { left. vm_compute. reflexivity. }
  assert (H2 : symbol_of (get "/currency/x" "symbol=ETHBTC") = ""
               \/ Markets.Markets one_market
                    !! symbol_of (get "/currency/x" "symbol=ETHBTC") = None).
  { right. vm_compute. reflexivity. }
  destruct (GetOne_bad_request one_market _ H1) as (_ & Hs1 & Hb1 & _).
  destruct (GetOne_bad_request one_market _ H2) as (_ & Hs2 & Hb2 & _).
  split; split; assumption.
Defined.

(** ** GetAll *)

(** Claim C3, amended.  Whatever order the runtime walks the map in, the handler
    answers with the encoding of a slice that has as many records as the
    snapshot has keys; the records are, entry for entry, the projections
    of a permutation of the snapshot's entries (so each key has exactly
    one record, with feeCurrency BTC whatever the key); and the record of
    a non-empty key is the record that GetOne answers for that key. *)
Theorem GetAll_one_record_per_key order markets r :
  fair_order order ->
  exists currencies : option (list Currency.t),
    responds_with (GetAll order markets r)
      (CurrencyData.reflect {| CurrencyData.Currencies := currencies |})
    /\ slice_len currencies = size (Markets.Markets markets)
    /\ (exists entries,
          entries ≡ₚ map_to_list (Markets.Markets markets)
          /\ Forall2 (fun e c => projects e.1 e.2 c)
               entries (slice_elems currencies))
    /\ (forall S t r1,
          Markets.Markets markets !! S = Some t ->
          S <> "" -> symbol_of r1 = S ->
          exists c, c ∈ slice_elems currencies /\ projects S t c
                    /\ responds_with (GetOne markets r1)
                         (Currency.reflect c)).
Proof.
  intros Hfair. set (m := Markets.Markets markets).
  exists (collect (order m)). split; [|split; [|split]].
  - rewrite GetAll_unfold. fold m.
    destruct (Marshal_encodable _
                (CurrencyData_encodable
                   {| CurrencyData.Currencies := collect (order m) |}))
      as [body Hbody].
    rewrite Hbody. exists body. split; [exact Hbody | reflexivity].
  - transitivity (length (slice_elems (collect (order m)))).
    { now destruct (collect (order m)). }
    rewrite collect_elems, length_fmap, (Hfair m).
    apply length_map_to_list.
  - exists (order m). split; [apply Hfair|].
    rewrite collect_elems. apply Forall2_fmap_r, Forall_Forall2_diag.
    apply Forall_forall. intros e _. now apply projects_record_of.
  - intros S t r1 Ht Hne HS. exists (record_of S t). split; [|split].
    + rewrite collect_elems.
      apply (list_elem_of_fmap_2 (fun e => record_of e.1 e.2) _ (S, t)).
      rewrite (Hfair m). now apply elem_of_map_to_list.
    + now apply projects_record_of.
    + subst S. now apply GetOne_record.
Qed.

Lemma GetAll_one_record_per_key_witness :
  exists currencies : option (list Currency.t),
    responds_with (GetAll map_to_list two_markets (get "/currency/all" ""))
      (CurrencyData.reflect {| CurrencyData.Currencies := currencies |})
    /\ slice_len currencies = size (Markets.Markets two_markets)
    /\ (exists entries,
          entries ≡ₚ map_to_list (Markets.Markets two_markets)
          /\ Forall2 (fun e c => projects e.1 e.2 c)
               entries (slice_elems currencies))
    /\ (forall S t r1,
          Markets.Markets two_markets !! S = Some t ->
          S <> "" -> symbol_of r1 = S ->
          exists c, c ∈ slice_elems currencies /\ projects S t c
                    /\ responds_with (GetOne two_markets r1)
                         (Currency.reflect c)).
Proof.
  apply (GetAll_one_record_per_key map_to_list two_markets
           (get "/currency/all" "")).
  intros m. reflexivity.
Defined.

(** Claim C3 as stated fails for the empty key.  The snapshot has an
    entry under the empty key; GetAll lists the record projected from
    it, while GetOne, asked for that key, answers with the bad-request
    reply and produces no record, so the listed record is not one that
    GetOne would produce for its key. *)
Lemma GetAll_empty_key_cex :
  (exists c,
     projects "" ticker_btc c
     /\ responds_with
          (GetAll map_to_list nameless_market (get "/currency/all" ""))
          (CurrencyData.reflect {| CurrencyData.Currencies := Some [c] |}))
  /\ forall r,
       symbol_of r = "" ->
       GetOne nameless_market r
       = http_Error ResponseWriter.new "No symbol specified" StatusBadRequest
       /\ ~ exists c, responds_with (GetOne nameless_market r)
                        (Currency.reflect c).
Proof.
  split.
  - exists (record_of "" ticker_btc). split.
    + now apply projects_record_of.
    + eexists. split; vm_compute; reflexivity.
  - intros r Hr.
    assert (Hget : GetOne nameless_market r
              = http_Error ResponseWriter.new "No symbol specified"
                  StatusBadRequest)
      by (rewrite GetOne_unfold, Hr; reflexivity).
    split; [exact Hget|].
    intros (c & Hresp). apply responds_with_status in Hresp.
    rewrite Hget, http_Error_new in Hresp. discriminate.
Qed.

(** One admissible walk of a snapshot with two entries. *)
Example GetAll_two_markets :
  GetAll map_to_list two_markets (get "/currency/all" "")
  = json_response
      (js "{'currencies':[{'id':'ETHBTC','fullName':'ETHBTC','ask':'0.07','bid':'0.069','last':'0.0695','open':'0.068','low':'0.067','high':'0.071','feeCurrency':'BTC','volume':'','quoteVolume':'','change':'','percentChange':''},{'id':'BTCUSD','fullName':'BTCUSD','ask':'10','bid':'9','last':'9.5','open':'9','low':'8','high':'11','feeCurrency':'BTC','volume':'','quoteVolume':'','change':'','percentChange':''}]}").
Proof. vm_compute. reflexivity. Qed.

(** Claim C4, on the code.  With an empty snapshot the request for
    /currency/all is answered with status 200 and the body
    [{"currencies":null}]: the slice is still the nil slice when the loop
    body has never run, and a nil slice is encoded as [null], not as the
    empty list [[]] that the claim asks for. *)
Theorem GetAll_empty_snapshot_null :
  let r := get "/currency/all" "" in
  GetAll map_to_list empty_market r = json_response (js "{'currencies':null}")
  /\ serve map_to_list empty_market (main_ServeMux ResponseWriter.new r)
     = json_response (js "{'currencies':null}")
  /\ ResponseWriter.Body (GetAll map_to_list empty_market r)
     <> js "{'currencies':[]}".
Proof.
  intros r.
  assert (H : GetAll map_to_list empty_market r
              = json_response (js "{'currencies':null}"))
    by apply GetAll_empty, fair_map_to_list.
  split; [exact H|]. split; [exact H|]. rewrite H. discriminate.
Qed.

(** ** Routing *)

(** Claim C5, on the code.  BTCUSD is a key of the snapshot, yet the GET
    request for /currency/BTCUSD is answered 400 [No symbol specified]:
    the symbol cut from the path is set on a map that is then dropped,
    and the handler reads the query string.  Conversely
    /currency/ETHBTC?symbol=BTCUSD is answered with the record of
    BTCUSD. *)
Theorem currency_route_drops_path_symbol :
  Markets.Markets one_market !! "BTCUSD" = Some ticker_btc
  /\ serve map_to_list one_market
       (main_ServeMux ResponseWriter.new (get "/currency/BTCUSD" ""))
     = http_Error ResponseWriter.new "No symbol specified" StatusBadRequest
  /\ responds_with
       (serve map_to_list one_market
          (main_ServeMux ResponseWriter.new
             (get "/currency/ETHBTC" "symbol=BTCUSD")))
       (Currency.reflect (record_of "BTCUSD" ticker_btc)).
Proof.
  split; [vm_compute; reflexivity|]. split.
  - assert (H : serve map_to_list one_market
                  (main_ServeMux ResponseWriter.new (get "/currency/BTCUSD" ""))
                = GetOne one_market (get "/currency/BTCUSD" "")).
    { apply (main_ServeMux_currency one_market "BTCUSD" ""). discriminate. }
    rewrite H, GetOne_unfold. reflexivity.
  - assert (H : serve map_to_list one_market
                  (main_ServeMux ResponseWriter.new
                     (get "/currency/ETHBTC" "symbol=BTCUSD"))
                = GetOne one_market (get "/currency/ETHBTC" "symbol=BTCUSD")).
    { apply (main_ServeMux_currency one_market "ETHBTC" "symbol=BTCUSD").
      discriminate. }
    rewrite H.
    apply (GetOne_record one_market (get "/currency/ETHBTC" "symbol=BTCUSD")).
    + vm_compute. discriminate.
    + vm_compute. reflexivity.
Qed.

(** ** The fetcher and the refresh loop *)

Section Refresh.
Variable http_Get : string -> result Response.t.
Variable json_Unmarshal : string -> result (gmap string MarketTicker.t).
Variable symbols : list string.

Lemma updateMarkets_tick_cases markets :
  match getMarkets http_Get json_Unmarshal symbols with
  | Ok newMarkets =>
      fst (updateMarkets_tick http_Get json_Unmarshal symbols markets)
      = newMarkets
  | Err _ =>
      fst (updateMarkets_tick http_Get json_Unmarshal symbols markets)
      = markets
  end.
Proof.
  unfold updateMarkets_tick.
  now destruct (getMarkets http_Get json_Unmarshal symbols).
Qed.

(** Claim C6.  A tick whose fetch fails leaves the shared snapshot as
    it was: the same value, hence the same ticker under every key and
    the same answers from both handlers.  A tick whose fetch succeeds
    puts the fetched snapshot in its place, and a tick that changes the
    snapshot had a successful fetch. *)
Theorem failed_refresh_keeps_snapshot markets :
  let fetched := getMarkets http_Get json_Unmarshal symbols in
  let markets' :=
    fst (updateMarkets_tick http_Get json_Unmarshal symbols markets) in
  (is_Err fetched = true ->
     markets' = markets
     /\ (forall k,
           Markets.Markets markets' !! k = Markets.Markets markets !! k)
     /\ (forall r, GetOne markets' r = GetOne markets r)
     /\ (forall order r, GetAll order markets' r = GetAll order markets r))
  /\ (forall newMarkets, fetched = Ok newMarkets -> markets' = newMarkets)
  /\ (markets' <> markets -> is_Err fetched = false).
Proof.
  intros fetched markets'. subst fetched markets'.
  pose proof (updateMarkets_tick_cases markets) as Hcases.
  destruct (getMarkets http_Get json_Unmarshal symbols) as [new|e];
    cbn [is_Err].
  - split; [discriminate|].
    split; [intros ? [= <-]; exact Hcases | reflexivity].
  - rewrite Hcases. split; [intros _; repeat split|].
    split; [discriminate | intros H; now contradiction H].
Qed.

(** Claim C7, amended.  [getMarkets] returns an error, and no snapshot,
    exactly when the GET itself fails, when reading the body of the
    response fails, or when the body does not parse as a mapping from
    symbol to ticker.  Otherwise it returns the parsed mapping; the
    status code of the response plays no part. *)
Theorem getMarkets_error_iff :
  (is_Err (getMarkets http_Get json_Unmarshal symbols) = true <->
     is_Err (http_Get endpoint) = true
     \/ (exists resp, http_Get endpoint = Ok resp
                      /\ is_Err (Response.Body resp) = true)
     \/ (exists resp body, http_Get endpoint = Ok resp
                           /\ Response.Body resp = Ok body
                           /\ is_Err (json_Unmarshal body) = true))
  /\ (forall resp body marketTickers,
        http_Get endpoint = Ok resp ->
        Response.Body resp = Ok body ->
        json_Unmarshal body = Ok marketTickers ->
        getMarkets http_Get json_Unmarshal symbols
        = Ok {| Markets.Markets := marketTickers |}).
Proof.
  unfold getMarkets, ioutil_ReadAll. fold endpoint. split.
  - destruct (http_Get endpoint) as [resp|e] eqn:Hget.
    + destruct (Response.Body resp) as [body|e] eqn:Hbody.
      * destruct (json_Unmarshal body) as [m|e] eqn:Hdec; cbn [is_Err].
        -- split; [discriminate|].
           intros [H|[(resp' & [= <-] & H)
                     |(resp' & body' & [= <-] & Hb & H)]];
             try discriminate.
           ++ rewrite Hbody in H. discriminate.
           ++ rewrite Hbody in Hb. injection Hb as <-.
              rewrite Hdec in H. discriminate.
        -- split; [|reflexivity]. intros _. right. right.
           exists resp, body. rewrite Hdec. auto.
      * cbn [is_Err]. split; [|reflexivity]. intros _. right. left.
        exists resp. rewrite Hbody. auto.
    + cbn [is_Err]. split; [|reflexivity]. auto.
  - intros resp body m -> -> ->. reflexivity.
Qed.

(** Claim C8.  The symbol list plays no part in the fetch: with the
    same network and the same decoder, [getMarkets] returns the same
    result for any two lists, and so does a tick of the refresh loop. *)
Theorem getMarkets_ignores_symbols (symbols' : list string) :
  getMarkets http_Get json_Unmarshal symbols
  = getMarkets http_Get json_Unmarshal symbols'
  /\ forall markets,
       updateMarkets_tick http_Get json_Unmarshal symbols markets
       = updateMarkets_tick http_Get json_Unmarshal symbols' markets.
Proof. split; reflexivity. Qed.
End Refresh.

(** However many ticks fail in a row, the snapshot stays. *)
Lemma failed_refreshes_keep_snapshot json_Unmarshal symbols nets markets :
  Forall (fun net => is_Err (getMarkets net json_Unmarshal symbols) = true)
    nets ->
  updateMarkets_ticks json_Unmarshal symbols nets markets = markets.
Proof.
  unfold updateMarkets_ticks. induction 1 as [|net nets Hnet _ IH];
    [reflexivity|].
  cbn [foldl]. pose proof (updateMarkets_tick_cases net json_Unmarshal
                             symbols markets) as Hcases.
  destruct (getMarkets net json_Unmarshal symbols); [discriminate|].
  rewrite Hcases. exact IH.
Qed.

Lemma failed_refresh_keeps_snapshot_witness :
  let markets' :=
    fst (updateMarkets_tick net_down Unmarshal_flat ["BTCUSD"] one_market) in
  markets' = one_market
  /\ (forall k,
        Markets.Markets markets' !! k = Markets.Markets one_market !! k)
  /\ (forall r, GetOne markets' r = GetOne one_market r)
  /\ (forall order r, GetAll order markets' r = GetAll order one_market r).
Proof.
  apply (failed_refresh_keeps_snapshot net_down Unmarshal_flat ["BTCUSD"]
           one_market).
  reflexivity.
Defined.

Lemma getMarkets_error_iff_witness :
  getMarkets (net_replies 200 body_B) Unmarshal_flat ["B"] = Ok market_B.
Proof.
  apply (getMarkets_error_iff (net_replies 200 body_B) Unmarshal_flat ["B"])
    with (resp := {| Response.StatusCode := 200%nat;
                     Response.Body := Ok body_B |})
         (body := body_B).
  - reflexivity.
  - reflexivity.
  - vm_compute. reflexivity.
Defined.

(** Claim C7 as stated fails for a reply with a non-success status: the
    upstream answers 500 with the body of an empty object, and
    [getMarkets] returns the empty snapshot, not an error. *)
Lemma getMarkets_status_cex :
  let http_Get := net_replies 500 "{}" in
  (exists resp, http_Get endpoint = Ok resp
                /\ ~ success_status (Response.StatusCode resp))
  /\ getMarkets http_Get Unmarshal_flat ["BTCUSD"] = Ok empty_market
  /\ is_Err (getMarkets http_Get Unmarshal_flat ["BTCUSD"]) = false.
Proof.
  intros http_Get. split; [|split; reflexivity].
  eexists. split; [reflexivity|]. unfold success_status. cbn. lia.
Qed.

(** ** The refresh loop beside a handler *)

(** Claim C9, on the code.  The snapshot holds A only; a GetOne for A
    checks that A is a key, the loop then replaces the snapshot by one
    that holds B only, and the handler takes the ticker of A from the
    new snapshot, which has none.  The answer is a 200 for A with every
    price empty: neither the answer from the old snapshot (A with its
    prices) nor the answer from the new one (400). *)
Theorem GetOne_torn_by_refresh :
  let r := get "/currency/A" "symbol=A" in
  let refresh := net_replies 200 body_B in
  let resp :=
    serve_during map_to_list Unmarshal_flat ["A"; "B"] [ []; [refresh] ]
      market_A (CurrencyHandler ResponseWriter.new r) in
  fst (updateMarkets_tick refresh Unmarshal_flat ["A"; "B"] market_A) = market_B
  /\ resp = json_response
       (js "{'id':'A','fullName':'A','ask':'','bid':'','last':'','open':'','low':'','high':'','feeCurrency':'BTC','volume':'','quoteVolume':'','change':'','percentChange':''}")
  /\ resp <> GetOne market_A r
  /\ resp <> GetOne market_B r.
Proof.
  intros r refresh resp.
  assert (Htick : fst (updateMarkets_tick refresh Unmarshal_flat ["A"; "B"]
                         market_A) = market_B).
  { vm_compute. reflexivity. }
  split; [exact Htick|].
  assert (Hresp : resp = json_response
       (js "{'id':'A','fullName':'A','ask':'','bid':'','last':'','open':'','low':'','high':'','feeCurrency':'BTC','volume':'','quoteVolume':'','change':'','percentChange':''}")).
  { vm_compute. reflexivity. }
  split; [exact Hresp|]. rewrite Hresp. split.
  - intros H. apply (f_equal ResponseWriter.Body) in H.
    vm_compute in H. discriminate.
  - intros H. apply (f_equal ResponseWriter.Status) in H.
    vm_compute in H. discriminate.
Qed.

(** ** Serialization *)

(** Claim C10.  Encoding a [Currency] or a [CurrencyData] never fails.
    Hence, on every path through either handler, whatever the snapshot,
    the symbol, the order of the walk and the ticks of the refresh loop
    in between, the response is not a 500, and unless it is a 400 it is
    a 200 whose body is a JSON text. *)
Theorem serialization_never_fails r resp :
  returns (CurrencyHandler ResponseWriter.new r) resp
  \/ returns (CurrenciesHandler ResponseWriter.new r) resp ->
  (forall c, is_Err (Marshal (Currency.reflect c)) = false)
  /\ (forall d, is_Err (Marshal (CurrencyData.reflect d)) = false)
  /\ ResponseWriter.Status resp <> Some StatusInternalServerError
  /\ (ResponseWriter.Status resp <> Some StatusBadRequest ->
      ResponseWriter.Status resp = Some StatusOK
      /\ json_value (ResponseWriter.Body resp)).
Proof.
  intros Hret. split; [|split].
  - intros c. destruct (Marshal_encodable _ (Currency_encodable c)) as [b ->].
    reflexivity.
  - intros d.
    destruct (Marshal_encodable _ (CurrencyData_encodable d)) as [b ->].
    reflexivity.
  - destruct Hret as [Hret|Hret].
    + apply (CurrencyHandler_good r resp Hret).
    + apply (CurrenciesHandler_good r resp Hret).
Qed.

Lemma serialization_never_fails_witness :
  let resp := GetOne one_market (get "/currency/BTCUSD" "symbol=BTCUSD") in
  (forall c, is_Err (Marshal (Currency.reflect c)) = false)
  /\ (forall d, is_Err (Marshal (CurrencyData.reflect d)) = false)
  /\ ResponseWriter.Status resp <> Some StatusInternalServerError
  /\ (ResponseWriter.Status resp <> Some StatusBadRequest ->
      ResponseWriter.Status resp = Some StatusOK
      /\ json_value (ResponseWriter.Body resp)).
Proof.
  intros resp.
  apply (serialization_never_fails (get "/currency/BTCUSD" "symbol=BTCUSD")).
  left. apply serve_returns.
Defined.

(** * Further properties of the code *)

Example Unmarshal_Config_flat_two :
  Unmarshal_Config_flat (js "{'symbols':['ETHBTC','LTCBTC']}")
  = Ok {| Config.Symbols := ["ETHBTC"; "LTCBTC"] |}.
Proof. vm_compute. reflexivity. Qed.

Example Unmarshal_Config_flat_rejects :
  is_Err (Unmarshal_Config_flat "symbols: BTCUSD") = true.
Proof. reflexivity. Qed.

(** ** The query string *)

Lemma query_plain_cons c s :
  query_plain (String c s) = true ->
  Ascii.eqb c "&" = false /\ Ascii.eqb c ";" = false
  /\ Ascii.eqb c "%" = false /\ Ascii.eqb c "+" = false
  /\ query_plain s = true.
Proof.
  cbn [query_plain]. rewrite !andb_true_iff, !negb_true_iff. tauto.
Qed.

Lemma query_segments_plain s :
  query_plain s = true -> s <> "" -> query_segments s = [s].
Proof.
  induction s as [|c s IH]; intros Hplain Hne; [congruence|].
  apply query_plain_cons in Hplain.
  destruct Hplain as (Hamp & _ & _ & _ & Hplain).
  cbn [query_segments]. rewrite Hamp.
  destruct s as [|c' s']; [reflexivity|].
  rewrite IH by (auto; discriminate). reflexivity.
Qed.

Lemma Contains_semicolon_plain s :
  query_plain s = true -> Contains ";" s = false.
Proof.
  induction s as [|c s IH]; intros Hplain; [reflexivity|].
  apply query_plain_cons in Hplain.
  destruct Hplain as (_ & Hsemi & _ & _ & Hplain).
  cbn [Contains]. rewrite Hsemi. now apply IH.
Qed.

Lemma QueryUnescape_plain s : query_plain s = true -> QueryUnescape s = Ok s.
Proof.
  induction s as [|c s IH]; intros Hplain; [reflexivity|].
  apply query_plain_cons in Hplain.
  destruct Hplain as (_ & _ & Hpct & Hplus & Hplain).
  cbn [QueryUnescape]. rewrite Hpct, Hplus, (IH Hplain). reflexivity.
Qed.

Lemma symbol_of_plain path S :
  query_plain S = true -> symbol_of (get path ("symbol=" +:+ S)) = S.
Proof.
  intros Hplain. unfold symbol_of, get, URL.Query, ParseQuery.
  cbn [Request.URL URL.RawQuery].
  rewrite query_segments_plain; [|exact Hplain|discriminate].
  cbn [foldl]. unfold parseQuery_step.
  rewrite (Contains_semicolon_plain ("symbol=" +:+ S)) by exact Hplain.
  change (String.eqb ("symbol=" +:+ S) "") with false.
  change (Cut "=" ("symbol=" +:+ S)) with ("symbol", S).
  cbv beta iota. rewrite (QueryUnescape_plain S Hplain).
  change (QueryUnescape "symbol") with (Ok (A := string) "symbol").
  cbv beta iota. unfold Values_Get. rewrite lookup_insert_eq, lookup_empty. reflexivity.
Qed.

(** X1.  A request whose query string is [symbol=S], for a non-empty
    text [S] without ampersand, semicolon, percent sign or plus sign
    that is a key of the snapshot, is answered with the record of [S],
    whatever its path. *)
Theorem GetOne_by_query markets path S t :
  query_plain S = true -> S <> "" ->
  Markets.Markets markets !! S = Some t ->
  symbol_of (get path ("symbol=" +:+ S)) = S
  /\ responds_with (GetOne markets (get path ("symbol=" +:+ S)))
       (Currency.reflect (record_of S t)).
Proof.
  intros Hplain Hne Ht.
  pose proof (symbol_of_plain path S Hplain) as HS. split; [exact HS|].
  pose proof (GetOne_record markets (get path ("symbol=" +:+ S)) t) as H.
  rewrite HS in H. now apply H.
Qed.

Lemma GetOne_by_query_witness :
  symbol_of (get "/currency/x" ("symbol=" +:+ "ETHBTC")) = "ETHBTC"
  /\ responds_with
       (GetOne two_markets (get "/currency/x" ("symbol=" +:+ "ETHBTC")))
       (Currency.reflect (record_of "ETHBTC" ticker_eth)).
Proof.
  apply (GetOne_by_query two_markets "/currency/x" "ETHBTC" ticker_eth).
  - reflexivity.
  - discriminate.
  - vm_compute. reflexivity.
Defined.

(** ** The handlers on every path *)

(** X2.  However the reads of [CurrencyHandler] are answered, that is
    under every interleaving with the refresh loop, its response is one
    of three: the reply [No symbol specified] when the symbol parameter
    is empty, the reply [Invalid symbol specified], or a JSON success
    response with a record whose id is the symbol asked for.  It never
    answers with the record of another symbol. *)
Theorem CurrencyHandler_outcomes r resp :
  returns (CurrencyHandler ResponseWriter.new r) resp ->
  (symbol_of r = ""
   /\ resp = http_Error ResponseWriter.new "No symbol specified"
               StatusBadRequest)
  \/ (symbol_of r <> ""
      /\ (resp = http_Error ResponseWriter.new "Invalid symbol specified"
                   StatusBadRequest
          \/ exists t,
               responds_with resp
                 (Currency.reflect (record_of (symbol_of r) t)))).
Proof.
  unfold CurrencyHandler. cbv zeta. fold (symbol_of r). intros Hret.
  destruct (String.eqb_spec (symbol_of r) "") as [He|Hne].
  { left. apply returns_Return_inv in Hret. auto. }
  right. split; [exact Hne|].
  apply returns_Load_inv in Hret. destruct Hret as [m Hret].
  destruct (m !! symbol_of r).
  2:{ left. now apply returns_Return_inv in Hret. }
  apply returns_Load_inv in Hret. destruct Hret as [m' Hret].
  right. exists (default MarketTicker.zero (m' !! symbol_of r)).
  set (t' := default MarketTicker.zero _) in *.
  fold (record_of (symbol_of r) t') in Hret.
  destruct (Marshal_record_ok (symbol_of r) t') as [body Hbody].
  rewrite Hbody in Hret. apply returns_Return_inv in Hret.
  exists body. split; [exact Hbody|]. rewrite Hret. apply write_json_new.
Qed.

Lemma CurrencyHandler_outcomes_witness :
  let r := get "/currency/A" "symbol=A" in
  let resp :=
    serve_during map_to_list Unmarshal_flat [] [ []; [net_replies 200 body_B] ]
      market_A (CurrencyHandler ResponseWriter.new r) in
  (symbol_of r = ""
   /\ resp = http_Error ResponseWriter.new "No symbol specified"
               StatusBadRequest)
  \/ (symbol_of r <> ""
      /\ (resp = http_Error ResponseWriter.new "Invalid symbol specified"
                   StatusBadRequest
          \/ exists t,
               responds_with resp
                 (Currency.reflect (record_of (symbol_of r) t)))).
Proof.
  intros r resp. apply (CurrencyHandler_outcomes r resp).
  apply serve_during_returns.
Defined.

(** X3.  The answer of GetOne depends on the snapshot through the entry
    of the requested symbol only: two snapshots that agree on that key
    give the same response, whatever else they hold. *)
Theorem GetOne_reads_own_entry markets markets' r :
  Markets.Markets markets !! symbol_of r
  = Markets.Markets markets' !! symbol_of r ->
  GetOne markets r = GetOne markets' r.
Proof. intros H. rewrite !GetOne_unfold, H. reflexivity. Qed.

Lemma GetOne_reads_own_entry_witness :
  GetOne one_market (get "/currency/x" "symbol=BTCUSD")
  = GetOne two_markets (get "/currency/x" "symbol=BTCUSD").
Proof.
  apply (GetOne_reads_own_entry one_market two_markets).
  vm_compute. reflexivity.
Defined.

(** ** Routing *)

(** X4.  A request for the path /currency is answered 301 with the
    location /currency/all, whatever its method, its query string and
    the snapshot; the query string is not carried over.  A GET receives
    the HTML link as body, any other method an empty body. *)
Theorem currency_redirects order markets r :
  URL.Path (Request.URL r) = "/currency" ->
  let resp := serve order markets (main_ServeMux ResponseWriter.new r) in
  ResponseWriter.Status resp = Some StatusMovedPermanently
  /\ ResponseWriter.Header resp !! "Location" = Some ["/currency/all"]
  /\ ResponseWriter.Body resp
     = (if String.eqb (Request.Method r) "GET"
        then js "<a href='/currency/all'>Moved Permanently</a>."
               +:+ newline +:+ newline
        else "").
Proof.
  intros Hpath resp. subst resp. unfold main_ServeMux. rewrite Hpath.
  change (String.eqb "/currency" "/currency") with true. cbv iota.
  cbn [serve]. unfold http_Redirect.
  destruct (String.eqb (Request.Method r) "GET");
    destruct (String.eqb (Request.Method r) "HEAD");
    vm_compute; repeat split.
Qed.

Lemma currency_redirects_witness :
  let resp :=
    serve map_to_list one_market
      (main_ServeMux ResponseWriter.new (get "/currency" "symbol=BTCUSD")) in
  ResponseWriter.Status resp = Some StatusMovedPermanently
  /\ ResponseWriter.Header resp !! "Location" = Some ["/currency/all"]
  /\ ResponseWriter.Body resp
     = js "<a href='/currency/all'>Moved Permanently</a>."
         +:+ newline +:+ newline.
Proof.
  apply (currency_redirects map_to_list one_market
           (get "/currency" "symbol=BTCUSD")).
  reflexivity.
Defined.

Lemma serve_CurrencyHandler_order order markets w r :
  serve order markets (CurrencyHandler w r)
  = serve map_to_list markets (CurrencyHandler w r).
Proof.
  unfold CurrencyHandler. destruct (String.eqb _ ""); [reflexivity|].
  cbn [serve]. destruct (_ !! _); [|reflexivity].
  cbn [serve]. cbv zeta. now destruct (Marshal _).
Qed.

(** X5.  The closure registered for /currency/ looks at the segment
    after the prefix only to tell [all] from the rest.  For [all] the
    answer is the list of all currencies, whatever the method and the
    query string.  For any other segment the answer is that of
    [CurrencyHandler] on the query string: requests with the same query
    string get the same answer, whatever their segments. *)
Theorem currency_slash_dispatch order markets r seg :
  URL.Path (Request.URL r) = "/currency/" +:+ seg ->
  let resp := serve order markets (main_currency_route ResponseWriter.new r) in
  (seg = "all" -> forall r', resp = GetAll order markets r')
  /\ (seg <> "all" ->
      forall r',
        URL.RawQuery (Request.URL r') = URL.RawQuery (Request.URL r) ->
        resp = GetOne markets r').
Proof.
  intros Hpath resp. subst resp. unfold main_currency_route. rewrite Hpath.
  change (drop_bytes (String.length "/currency/") ("/currency/" +:+ seg))
    with seg.
  cbv zeta. split.
  - intros ->. intros r'. reflexivity.
  - intros Hne r' Hq. apply String.eqb_neq in Hne. rewrite Hne. cbn [negb].
    rewrite serve_CurrencyHandler_order. fold (GetOne markets r).
    rewrite !GetOne_unfold. unfold symbol_of, URL.Query. rewrite Hq.
    reflexivity.
Qed.

Lemma currency_slash_dispatch_witness :
  (forall r',
     serve map_to_list two_markets
       (main_currency_route ResponseWriter.new
          (get "/currency/all" "symbol=BTCUSD"))
     = GetAll map_to_list two_markets r')
  /\ (forall r',
        URL.RawQuery (Request.URL r') = "symbol=BTCUSD" ->
        serve map_to_list two_markets
          (main_currency_route ResponseWriter.new
             (get "/currency/ETHBTC" "symbol=BTCUSD"))
        = GetOne two_markets r').
Proof.
  split.
  - apply (currency_slash_dispatch map_to_list two_markets
             (get "/currency/all" "symbol=BTCUSD") "all");
      reflexivity.
  - apply (currency_slash_dispatch map_to_list two_markets
             (get "/currency/ETHBTC" "symbol=BTCUSD") "ETHBTC").
    + reflexivity.
    + discriminate.
Defined.

(** ** The refresh loop *)

Lemma updateMarkets_ticks_app dec symbols nets nets' markets :
  updateMarkets_ticks dec symbols (nets ++ nets') markets
  = updateMarkets_ticks dec symbols nets'
      (updateMarkets_ticks dec symbols nets markets).
Proof. unfold updateMarkets_ticks. apply foldl_app. Qed.

(** The cell holds at every moment the snapshot of startup or a snapshot
    that one of the ticks fetched. *)
Lemma updateMarkets_ticks_origin dec symbols nets : forall markets,
  updateMarkets_ticks dec symbols nets markets = markets
  \/ exists net,
       net ∈ nets
       /\ getMarkets net dec symbols
          = Ok (updateMarkets_ticks dec symbols nets markets).
Proof.
  induction nets as [|net nets IH]; intros markets; [now left|].
  change (updateMarkets_ticks dec symbols (net :: nets) markets)
    with (updateMarkets_ticks dec symbols nets
            (fst (updateMarkets_tick net dec symbols markets))).
  pose proof (updateMarkets_tick_cases net dec symbols markets) as Hcases.
  destruct (IH (fst (updateMarkets_tick net dec symbols markets)))
    as [Heq | (net' & Hin & Hfetch)].
  - rewrite Heq.
    destruct (getMarkets net dec symbols) as [new|e] eqn:Hget.
    + right. exists net. split; [apply list_elem_of_here|].
      now rewrite Hcases.
    + now left.
  - right. exists net'. split; [now apply list_elem_of_further | exact Hfetch].
Qed.

(** X6.  Served beside the refresh loop, under any schedule of its
    ticks, [CurrenciesHandler] answers from one whole snapshot: the
    response is the one it gives on a single snapshot, which is the
    snapshot it started with or one that a tick fetched.  Entries of two
    snapshots are never mixed in one list. *)
Theorem GetAll_during_refresh_whole_snapshot
    order dec symbols schedule markets r :
  exists snapshot,
    (snapshot = markets
     \/ exists net,
          net ∈ default [] (head schedule)
          /\ getMarkets net dec symbols = Ok snapshot)
    /\ serve_during order dec symbols schedule markets
         (CurrenciesHandler ResponseWriter.new r)
       = GetAll order snapshot r.
Proof.
  exists (updateMarkets_ticks dec symbols (default [] (head schedule)) markets).
  split; [|apply GetAll_during_one_snapshot].
  destruct (updateMarkets_ticks_origin dec symbols
              (default [] (head schedule)) markets) as [H|H]; auto.
Qed.

(** X7.  After any run of ticks the cell holds the snapshot fetched by
    the last tick that succeeded, whatever the cell held before and
    whatever the earlier ticks fetched: a refresh replaces the snapshot
    wholesale and merges nothing. *)
Theorem refresh_last_success_wins dec symbols earlier net later markets fetched :
  getMarkets net dec symbols = Ok fetched ->
  Forall (fun net' => is_Err (getMarkets net' dec symbols) = true) later ->
  updateMarkets_ticks dec symbols (earlier ++ net :: later) markets = fetched.
Proof.
  intros Hok Hlater. rewrite updateMarkets_ticks_app.
  change (updateMarkets_ticks dec symbols (net :: later) ?m)
    with (updateMarkets_ticks dec symbols later
            (fst (updateMarkets_tick net dec symbols m))).
  rewrite failed_refreshes_keep_snapshot by exact Hlater.
  pose proof (updateMarkets_tick_cases net dec symbols
                (updateMarkets_ticks dec symbols earlier markets)) as Hcases.
  now rewrite Hok in Hcases.
Qed.

Lemma refresh_last_success_wins_witness :
  updateMarkets_ticks Unmarshal_flat ["A"]
    ([net_replies 200 "{}"] ++ net_replies 200 body_B :: [net_down])
    market_A
  = market_B.
Proof.
  apply (refresh_last_success_wins Unmarshal_flat ["A"]
           [net_replies 200 "{}"] (net_replies 200 body_B) [net_down]
           market_A market_B).
  - vm_compute. reflexivity.
  - repeat constructor.
Defined.

(** ** Configuration and startup *)

(** X8.  [getConfig] fails exactly when the file config.json cannot be
    read or its content does not decode, and otherwise returns the
    decoded configuration; it consults no other file, so two file
    systems with the same config.json give the same result. *)
Theorem getConfig_reads_config_json fs fs' decode :
  fs "config.json" = fs' "config.json" ->
  getConfig fs decode = getConfig fs' decode
  /\ (is_Err (getConfig fs decode) = true <->
        is_Err (fs "config.json") = true
        \/ exists bytes, fs "config.json" = Ok bytes
                         /\ is_Err (decode bytes) = true)
  /\ (forall bytes config,
        fs "config.json" = Ok bytes -> decode bytes = Ok config ->
        getConfig fs decode = Ok config).
Proof.
  intros Hsame. unfold getConfig, ReadFile. rewrite <- Hsame.
  split; [reflexivity|]. split.
  - destruct (fs "config.json") as [bytes|e]; cbn [is_Err].
    + destruct (decode bytes) as [config|e] eqn:Hdec; cbn [is_Err].
      * split; [discriminate|].
        intros [H|(bytes' & [= <-] & H)]; [discriminate|].
        rewrite Hdec in H. discriminate.
      * split; [|reflexivity]. intros _. right. exists bytes.
        rewrite Hdec. auto.
    + split; auto.
  - intros bytes config -> ->. reflexivity.
Qed.

Lemma getConfig_reads_config_json_witness :
  getConfig (file_system "config.json" (js "{'symbols':['BTCUSD']}"))
    Unmarshal_Config_flat
  = getConfig
      (fun name =>
         if String.eqb name "markets.json" then Ok "{}"
         else file_system "config.json" (js "{'symbols':['BTCUSD']}") name)
      Unmarshal_Config_flat.
Proof.
  apply (getConfig_reads_config_json
           (file_system "config.json" (js "{'symbols':['BTCUSD']}"))).
  reflexivity.
Defined.







(** The run of the witness: B is not among the configured symbols, and
    it is what the cell holds. *)
Example main_unconfigured_symbol :
  snapshot_after Unmarshal_flat [net_down]
    (main (file_system "config.json" (js "{'symbols':['BTCUSD']}"))
       Unmarshal_Config_flat "2023/05/01 10:00:00 "
       (net_replies 200 body_B) Unmarshal_flat serves_forever)
  = Some market_B.
Proof. vm_compute. reflexivity. Qed.




(** ** The list of all currencies *)

Lemma Marshal_CurrencyData_some l :
  exists elems,
    Marshal (CurrencyData.reflect {| CurrencyData.Currencies := Some l |})
    = Ok (js "{'currencies':[" +:+ elems).
Proof.
  destruct (Marshal_encodable _
              (CurrencyData_encodable {| CurrencyData.Currencies := Some l |}))
    as [body Hbody].
  unfold CurrencyData.reflect in *.
  cbn [CurrencyData.Currencies fmap option_fmap option_map] in *.
  cbn [Marshal encode_fields] in *.
  destruct (encode_elems Marshal (Currency.reflect <$> l) true) as [elems|];
    [|discriminate].
  exists (elems +:+ "}"). reflexivity.
Qed.

(** X11.  In the answer to /currency/all the member [currencies] is
    [null] exactly when the snapshot is empty; for any other snapshot it
    is a JSON list, opened by a bracket. *)
Theorem GetAll_null_iff_empty order markets r :
  fair_order order ->
  (Markets.Markets markets = ∅ ->
     ResponseWriter.Body (GetAll order markets r) = js "{'currencies':null}")
  /\ (Markets.Markets markets <> ∅ ->
      exists elems,
        ResponseWriter.Body (GetAll order markets r)
        = js "{'currencies':[" +:+ elems)
  /\ (ResponseWriter.Body (GetAll order markets r) = js "{'currencies':null}"
      <-> Markets.Markets markets = ∅).
Proof.
  intros Hfair.
  assert (Hempty : Markets.Markets markets = ∅ ->
            ResponseWriter.Body (GetAll order markets r)
            = js "{'currencies':null}").
  { intros He. destruct markets as [m]. cbn [Markets.Markets] in He. subst m.
    change {| Markets.Markets := ∅ |} with empty_market.
    now rewrite GetAll_empty. }
  assert (Hsome : Markets.Markets markets <> ∅ ->
            exists elems,
              ResponseWriter.Body (GetAll order markets r)
              = js "{'currencies':[" +:+ elems).
  { intros Hne. rewrite GetAll_unfold.
    destruct (collect (order (Markets.Markets markets))) as [l|] eqn:Hl.
    - destruct (Marshal_CurrencyData_some l) as [elems ->].
      exists elems. reflexivity.
    - apply collect_nil_iff in Hl. exfalso. apply Hne.
      apply map_to_list_empty_iff, Permutation_nil_r.
      now rewrite <- (Hfair (Markets.Markets markets)), Hl. }
  split; [exact Hempty|]. split; [exact Hsome|]. split; [|exact Hempty].
  intros Hbody. destruct (decide (Markets.Markets markets = ∅)) as [|Hne];
    [assumption|].
  destruct (Hsome Hne) as [elems Helems]. rewrite Helems in Hbody.
  discriminate.
Qed.

Lemma GetAll_null_iff_empty_witness :
  exists elems,
    ResponseWriter.Body (GetAll map_to_list one_market (get "/currency/all" ""))
    = js "{'currencies':[" +:+ elems.
Proof.
  apply (GetAll_null_iff_empty map_to_list one_market (get "/currency/all" "")).
  - intros m. reflexivity.
  - vm_compute. discriminate.
Defined.
